(** * India Census Data Explorer: the data pipeline of [app.py]

    [app.py] is a Streamlit script.  Everything it computes is a call into
    pandas on the frame read from [india.csv]; this development embeds the
    frame, the pandas operations the script calls (with the behaviour
    pandas documents for them) and, on top of these, the assignments of
    the script under the names they have there. *)

From Stdlib Require Import List String Ascii Bool Arith ZArith QArith.
From Stdlib Require Import Qround Qminmax Qabs DecimalString.
From Stdlib Require Import Lia Lqa Sorted Permutation.
Import ListNotations.

Open Scope string_scope.
Open Scope list_scope.

(** ** Floating-point results

    A [numpy.float64] result is a finite number, an infinity or NaN.
    Finite arithmetic is taken exact (no rounding, no overflow) and zero
    carries no sign; the special values follow IEEE 754, which is what
    numpy does on a division by zero: a warning, never an exception. *)
Module F64.

Inductive float : Type :=
| Fin (q : Q)
| PInf
| NInf
| NaN.

Definition is_zero (q : Q) : bool := (Qnum q =? 0)%Z.
Definition is_pos (q : Q) : bool := (0 <? Qnum q)%Z.

Definition neg (x : float) : float :=
  match x with
  | Fin q => Fin (- q)
  | PInf => NInf
  | NInf => PInf
  | NaN => NaN
  end.

(** The infinity that has the sign of [q], for [q] not zero. *)
Definition inf_like (q : Q) : float := if is_pos q then PInf else NInf.

Definition add (x y : float) : float :=
  match x, y with
  | NaN, _ | _, NaN => NaN
  | Fin a, Fin b => Fin (a + b)
  | PInf, NInf | NInf, PInf => NaN
  | PInf, _ | _, PInf => PInf
  | NInf, _ | _, NInf => NInf
  end.

Definition sub (x y : float) : float := add x (neg y).

Definition mul (x y : float) : float :=
  match x, y with
  | NaN, _ | _, NaN => NaN
  | Fin a, Fin b => Fin (a * b)
  | Fin a, PInf | PInf, Fin a => if is_zero a then NaN else inf_like a
  | Fin a, NInf | NInf, Fin a => if is_zero a then NaN else neg (inf_like a)
  | PInf, PInf | NInf, NInf => PInf
  | PInf, NInf | NInf, PInf => NInf
  end.

Definition div (x y : float) : float :=
  match x, y with
  | NaN, _ | _, NaN => NaN
  | Fin a, Fin b =>
      if is_zero b
      then (if is_zero a then NaN else inf_like a)
      else Fin (a / b)
  | Fin _, PInf | Fin _, NInf => Fin 0
  | PInf, Fin b => if is_zero b then PInf else inf_like b
  | NInf, Fin b => if is_zero b then NInf else neg (inf_like b)
  | PInf, PInf | PInf, NInf | NInf, PInf | NInf, NInf => NaN
  end.

(** [x <= y] as numpy evaluates it: false as soon as one side is NaN. *)
Definition le (x y : float) : Prop :=
  match x, y with
  | NaN, _ | _, NaN => False
  | NInf, _ | _, PInf => True
  | Fin a, Fin b => (a <= b)%Q
  | _, _ => False
  end.

End F64.

(** ** Python built-ins the script calls *)
Module Python.

Import F64.

(** [sorted(l)]: stable, ascending for the order [leb].  Each element is
    put in front of the first element of the sorted tail that it does
    not exceed, so equal elements keep the order they came in. *)
Fixpoint insert {A : Type} (leb : A -> A -> bool) (x : A) (l : list A) : list A :=
  match l with
  | [] => [x]
  | y :: l' => if leb x y then x :: l else y :: insert leb x l'
  end.

Definition sorted {A : Type} (leb : A -> A -> bool) (l : list A) : list A :=
  fold_right (insert leb) [] l.

(** [s.replace(old, new)] for one-character [old] and [new]. *)
Fixpoint replace (old new : ascii) (s : string) : string :=
  match s with
  | EmptyString => EmptyString
  | String c s' =>
      String (if Ascii.eqb c old then new else c) (replace old new s')
  end.

(** Rounding to the nearest integer, ties to the even one. *)
Definition round_half_even (q : Q) : Z :=
  let f := Qfloor q in
  let r := (q - inject_Z f)%Q in
  match Qcompare r (1 # 2) with
  | Lt => f
  | Gt => (f + 1)%Z
  | Eq => if Z.even f then f else (f + 1)%Z
  end.

Definition digits (z : Z) : string :=
  NilEmpty.string_of_uint (N.to_uint (Z.to_N z)).

(** [f"{x:.1f}"]: one digit after the point, rounded on the exact value;
    the sign is printed for every negative value. *)
Definition format_1f (x : float) : string :=
  match x with
  | Fin q =>
      let m := round_half_even (Qabs q * 10) in
      ((if (Qnum q <? 0)%Z then "-" else "") ++
       digits (m / 10) ++ "." ++ digits (m mod 10))%string
  | PInf => "inf"
  | NInf => "-inf"
  | NaN => "nan"
  end.

End Python.

(** ** The frame and the pandas operations of the script *)
Module Pandas.

Import F64 Python.

(** A cell of a numeric column: a number, or [None] for NaN (a blank
    cell of the CSV). *)
Definition cell : Type := option Q.

Inductive value : Type :=
| VStr (s : string)
| VNum (c : cell).

(** [select_dtypes(include=[np.number])] keeps the [Number] columns. *)
Inductive dtype : Type :=
| Number
| Object.

(** One row of [india.csv]: a district.  The four columns the script
    names are fields; every other column is looked up by its name. *)
Record Row : Type := mkRow {
  State : string;
  District : string;
  Latitude : cell;
  Longitude : cell;
  others : list (string * value)
}.

(** The frame: its column labels with their dtypes, in the file's
    order, and its rows. *)
Record DataFrame : Type := mkDataFrame {
  dtypes : list (string * dtype);
  rows : list Row
}.

(** A frame after a selection of columns [df[[...]]], or on its way to a
    file: the labels and, for each row, the cells under them. *)
Record Table : Type := mkTable {
  header : list string;
  body : list (list value)
}.

Definition columns (df : DataFrame) : list string := map fst (dtypes df).

Definition len (df : DataFrame) : nat := List.length (rows df).

Fixpoint lookup (name : string) (kv : list (string * value)) : option value :=
  match kv with
  | [] => None
  | (k, v) :: kv' => if k =? name then Some v else lookup name kv'
  end.

(** [row[name]] for any column.  The script asks for labels of the frame
    only (its select boxes offer no other); a cell that is not there reads
    as NaN, which is how [read_csv] fills a short line. *)
Definition field (name : string) (r : Row) : value :=
  if name =? "State" then VStr (State r)
  else if name =? "District" then VStr (District r)
  else if name =? "Latitude" then VNum (Latitude r)
  else if name =? "Longitude" then VNum (Longitude r)
  else match lookup name (others r) with
       | Some v => v
       | None => VNum None
       end.

Definition as_num (v : value) : cell :=
  match v with
  | VNum c => c
  | VStr _ => None
  end.

(** [row[name]] for a numeric column. *)
Definition num (name : string) (r : Row) : cell := as_num (field name r).

(** [df[name]] for a numeric column: a Series, here the list of its cells. *)
Definition col (name : string) (df : DataFrame) : list cell :=
  map (num name) (rows df).

(** [df[names]]. *)
Definition select (names : list string) (df : DataFrame) : Table :=
  mkTable names (map (fun r => map (fun c => field c r) names) (rows df)).

(** [series == s]: the boolean mask. *)
Definition eq_mask (series : list string) (s : string) : list bool :=
  map (fun x => x =? s) series.

(** [df[mask]]: the rows at which the mask is true, in the frame's order. *)
Fixpoint boolean_index {A : Type} (xs : list A) (mask : list bool) : list A :=
  match xs, mask with
  | x :: xs', b :: mask' =>
      if b then x :: boolean_index xs' mask' else boolean_index xs' mask'
  | _, _ => []
  end.

(** [series.unique()]: the distinct values, each at its first occurrence. *)
Fixpoint unique_from (seen : list string) (s : list string) : list string :=
  match s with
  | [] => []
  | x :: s' =>
      if existsb (String.eqb x) seen
      then unique_from seen s'
      else x :: unique_from (x :: seen) s'
  end.

Definition unique (s : list string) : list string := unique_from [] s.

Definition nunique (s : list string) : nat := List.length (unique s).

(** [df.select_dtypes(include=[np.number]).columns]. *)
Definition is_number (d : dtype) : bool :=
  match d with Number => true | Object => false end.

Definition select_dtypes_number (df : DataFrame) : list string :=
  map fst (filter (fun c => is_number (snd c)) (dtypes df)).

Definition notna (c : cell) : bool :=
  match c with Some _ => true | None => false end.

Definition isna (c : cell) : bool := negb (notna c).

(** [series.dropna()]. *)
Fixpoint dropna (s : list cell) : list Q :=
  match s with
  | [] => []
  | Some q :: s' => q :: dropna s'
  | None :: s' => dropna s'
  end.

Definition sum (xs : list Q) : Q := fold_right Qplus 0 xs.

Definition of_nat (n : nat) : Q := inject_Z (Z.of_nat n).

(** [series.count()]: the cells that are not NaN. *)
Definition count (s : list cell) : nat := List.length (dropna s).

(** [series.mean()], with pandas' default [skipna=True]: the sum of the
    cells that are not NaN over their number, NaN when there is none. *)
Definition mean (s : list cell) : float :=
  match dropna s with
  | [] => NaN
  | xs => Fin (sum xs / of_nat (List.length xs))
  end.

(** [series.var()], [ddof=1]: NaN unless two cells at least are not NaN. *)
Definition var (s : list cell) : float :=
  let xs := dropna s in
  let n := List.length xs in
  if (n <=? 1)%nat then NaN
  else
    let avg := (sum xs / of_nat n)%Q in
    Fin (sum (map (fun x => (avg - x) * (avg - x))%Q xs) / of_nat (n - 1)).

(** A square root, kept as its radicand. *)
Inductive root : Type :=
| Sqrt (radicand : float).

(** [series.std()]: the square root of [series.var()]. *)
Definition std (s : list cell) : root := Sqrt (var s).

(** [series.min()] and [series.max()], NaN cells skipped. *)
Definition min (s : list cell) : float :=
  match dropna s with
  | [] => NaN
  | x :: xs => Fin (fold_left Qmin xs x)
  end.

Definition max (s : list cell) : float :=
  match dropna s with
  | [] => NaN
  | x :: xs => Fin (fold_left Qmax xs x)
  end.

(** Linear interpolation in the ascending list [v] at the position
    [pos], between the element before it and the next one: numpy's
    [percentile] with the method pandas passes. *)
Definition previous_index (pos : Q) : nat := Z.to_nat (Qfloor pos).

Definition next_index (n : nat) (pos : Q) : nat :=
  Nat.min (previous_index pos + 1) (n - 1).

Definition gamma (pos : Q) : Q := (pos - inject_Z (Qfloor pos))%Q.

Definition lerp (v : list Q) (pos : Q) : Q :=
  let a := nth (previous_index pos) v 0%Q in
  let b := nth (next_index (List.length v) pos) v 0%Q in
  (a + (b - a) * gamma pos)%Q.

(** [series.quantile(q)]. *)
Definition quantile (q : Q) (s : list cell) : float :=
  match dropna s with
  | [] => NaN
  | xs => Fin (lerp (sorted Qle_bool xs) (q * of_nat (List.length xs - 1)))
  end.

(** [series.describe()] of a numeric Series. *)
Record Describe : Type := mkDescribe {
  d_count : nat;
  d_mean : float;
  d_std : root;
  d_min : float;
  d_25 : float;
  d_50 : float;
  d_75 : float;
  d_max : float
}.

Definition describe (s : list cell) : Describe :=
  mkDescribe (count s) (mean s) (std s) (min s)
    (quantile (1 # 4) s) (quantile (1 # 2) s) (quantile (3 # 4) s) (max s).

(** The descending order of two cells; NaN comes after every number. *)
Definition cell_geb (a b : cell) : bool :=
  match a, b with
  | Some x, Some y => Qle_bool y x
  | Some _, None => true
  | None, Some _ => false
  | None, None => true
  end.

(** pandas' [nargsort], descending, NaN last: the elements whose key is
    not NaN by descending key, elements of equal key in the order they
    have, then the elements whose key is NaN. *)
Definition sort_desc {A : Type} (key : A -> cell) (l : list A) : list A :=
  sorted (fun a b => cell_geb (key a) (key b))
    (filter (fun r => notna (key r)) l)
  ++ filter (fun r => isna (key r)) l.

(** [df.nlargest(n, name)], [keep='first']: the first [n] rows in the
    descending order of the column, rows of equal value in the frame's
    order. *)
Definition nlargest (n : nat) (name : string) (df : DataFrame) : DataFrame :=
  mkDataFrame (dtypes df) (firstn n (sort_desc (num name) (rows df))).

(** The positions of a label among the labels of a table. *)
Fixpoint positions (name : string) (names : list string) (i : nat) : list nat :=
  match names with
  | [] => []
  | c :: names' =>
      if c =? name then i :: positions name names' (S i)
      else positions name names' (S i)
  end.

(** The numeric cell of a table row at a position. *)
Definition at_position (i : nat) (r : list value) : cell :=
  as_num (nth i r (VNum None)).

(** [t.sort_values(by=name, ascending=False)]: [None] stands for the
    exception pandas raises when the label is absent or not unique.
    pandas does not promise the order of rows of equal value here; the
    model keeps them as they were. *)
Definition sort_values_desc (name : string) (t : Table) : option Table :=
  match positions name (header t) 0 with
  | [i] => Some (mkTable (header t) (sort_desc (at_position i) (body t)))
  | _ => None
  end.

(** [df.to_csv(index=False)], before the cells are printed: the line of
    labels and one line of cells per row, every column, the rows in the
    frame's order. *)
Definition to_csv (df : DataFrame) : Table := select (columns df) df.

End Pandas.

(** ** The script *)
Module App.

Import F64 Python Pandas.

Definition overall_india : string := "Overall India".

(** Line 113. *)
Definition list_of_states (df : DataFrame) : list string :=
  overall_india :: sorted String.leb (unique (map State (rows df))).

(** Lines 124-127. *)
Definition numeric_columns (df : DataFrame) : list string :=
  filter (fun c => negb (existsb (String.eqb c) ["Latitude"; "Longitude"]))
    (sorted String.leb (select_dtypes_number df)).

(** Lines 171-180: the four variables the [if] assigns. *)
Definition filtered_df (df : DataFrame) (selected_state : string) : DataFrame :=
  if selected_state =? overall_india
  then df
  else mkDataFrame (dtypes df)
         (boolean_index (rows df) (eq_mask (map State (rows df)) selected_state)).

Definition zoom_level (selected_state : string) : Z :=
  if selected_state =? overall_india then 4%Z else 6%Z.

Definition center_lat (df : DataFrame) (selected_state : string) : float :=
  if selected_state =? overall_india
  then Fin 20.5937
  else mean (col "Latitude" (filtered_df df selected_state)).

Definition center_lon (df : DataFrame) (selected_state : string) : float :=
  if selected_state =? overall_india
  then Fin 78.9629
  else mean (col "Longitude" (filtered_df df selected_state)).

(** The expression inside the f-string of lines 199 and 206. *)
Definition delta_percent (view : DataFrame) (attribute : string)
    (global_mean : float) : float :=
  mul (sub (div (mean (col attribute view)) global_mean) (Fin 1)) (Fin 100).

(** The [delta=] argument of [st.metric], lines 199 and 206. *)
Definition metric_delta (df : DataFrame) (selected_state attribute : string)
    : option string :=
  if negb (selected_state =? overall_india)
  then Some (format_1f (delta_percent (filtered_df df selected_state) attribute
                          (mean (col attribute df))) ++ "%")%string
  else None.

(** Line 267. *)
Definition top_districts (view : DataFrame) (primary : string) : Table :=
  select ["District"; primary; "State"] (nlargest 10 primary view).

(** Lines 344 and 348. *)
Definition csv (view : DataFrame) : Table := to_csv view.

Definition file_name (selected_state : string) : string :=
  ("india_census_" ++ replace " "%char "_"%char selected_state ++ ".csv")%string.

(** Line 354: the table on the screen. *)
Definition data_table (view : DataFrame) (primary secondary : string)
    : option Table :=
  sort_values_desc primary (select ["State"; "District"; primary; secondary] view).

(** Lines 365 and 370. *)
Definition stats_primary (view : DataFrame) (primary : string) : Describe :=
  describe (col primary view).

Definition stats_secondary (view : DataFrame) (secondary : string) : Describe :=
  describe (col secondary view).

(** Lines 222-243: what [px.scatter_mapbox] is given. *)
Record MapFigure : Type := mkMapFigure {
  map_data : DataFrame;
  map_zoom : Z;
  map_center : float * float
}.

Definition fig_map (df : DataFrame) (selected_state : string) : MapFigure :=
  mkMapFigure (filtered_df df selected_state) (zoom_level selected_state)
    (center_lat df selected_state, center_lon df selected_state).

(** The widgets that the main content reads, with the value each has in
    the run at hand. *)
Record Widgets : Type := mkWidgets {
  selected_state : string;
  primary : string;
  secondary : string;
  show_stats : bool;
  show_comparison : bool;
  plot : bool;
  download : bool
}.

(** What the script hands to Streamlit, call by call. *)
Inductive element : Type :=
| MetricCount (label : string) (n : nat)
| MetricAvg (label : string) (v : float) (delta : option string)
| MapChart (fig : MapFigure)
| BarChart (t : Table)
| ScatterChart (data : DataFrame) (x y color : string)
| Histogram (data : DataFrame) (x : string)
| DownloadButton (data : Table) (name : string)
| DataTable (t : Table)
| Summary (label : string) (d : Describe)
| Welcome (districts states parameters points : nat)
| Preview (head : list Row).

(** The variables the main content assigns; [None] before the first
    assignment. *)
Record Vars : Type := mkVars {
  v_filtered_df : option DataFrame;
  v_zoom_level : option Z;
  v_center_lat : option float;
  v_center_lon : option float;
  v_top_districts : option Table;
  v_csv : option Table;
  v_stats_primary : option Describe;
  v_stats_secondary : option Describe
}.

Definition no_vars : Vars := mkVars None None None None None None None None.

Definition set_view (fdf : DataFrame) (zoom : Z) (lat lon : float) (v : Vars) : Vars :=
  mkVars (Some fdf) (Some zoom) (Some lat) (Some lon)
    (v_top_districts v) (v_csv v) (v_stats_primary v) (v_stats_secondary v).

Definition set_top_districts (t : Table) (v : Vars) : Vars :=
  mkVars (v_filtered_df v) (v_zoom_level v) (v_center_lat v) (v_center_lon v)
    (Some t) (v_csv v) (v_stats_primary v) (v_stats_secondary v).

Definition set_csv (t : Table) (v : Vars) : Vars :=
  mkVars (v_filtered_df v) (v_zoom_level v) (v_center_lat v) (v_center_lon v)
    (v_top_districts v) (Some t) (v_stats_primary v) (v_stats_secondary v).

Definition set_stats_primary (d : Describe) (v : Vars) : Vars :=
  mkVars (v_filtered_df v) (v_zoom_level v) (v_center_lat v) (v_center_lon v)
    (v_top_districts v) (v_csv v) (Some d) (v_stats_secondary v).

Definition set_stats_secondary (d : Describe) (v : Vars) : Vars :=
  mkVars (v_filtered_df v) (v_zoom_level v) (v_center_lat v) (v_center_lon v)
    (v_top_districts v) (v_csv v) (v_stats_primary v) (Some d).

(** A run of the script so far: its variables and the page. *)
Definition Run : Type := (Vars * list element)%type.

(** A step of the script ends normally or on an exception; either way the
    variables set and the elements drawn so far stay. *)
Inductive result (A : Type) : Type :=
| Ok (a : A) (s : Run)
| Raised (exn : string) (s : Run).

Arguments Ok {A} a s.
Arguments Raised {A} exn s.

Definition script (A : Type) : Type := Run -> result A.

Definition ret {A : Type} (a : A) : script A := fun s => Ok a s.

Definition bind {A B : Type} (m : script A) (k : A -> script B) : script B :=
  fun s =>
    match m s with
    | Ok a s' => k a s'
    | Raised exn s' => Raised exn s'
    end.

Definition raise {A : Type} (exn : string) : script A := fun s => Raised exn s.

Notation "x <- m ;; k" := (bind m (fun x => k))
  (at level 61, m at next level, right associativity).
Notation "m ;; k" := (bind m (fun _ => k))
  (at level 61, right associativity).

(** An assignment. *)
Definition assign (f : Vars -> Vars) : script unit :=
  fun s => Ok tt (f (fst s), snd s).

(** Calls of [st.metric], [st.plotly_chart], [st.dataframe], ... *)
Definition st (es : list element) : script unit :=
  fun s => Ok tt (fst s, snd s ++ es).

Definition when (b : bool) (m : script unit) : script unit :=
  if b then m else ret tt.

(** A pandas call that may raise. *)
Definition pandas {A : Type} (exn : string) (r : option A) : script A :=
  match r with
  | Some a => ret a
  | None => raise exn
  end.

(** Lines 169-371, the first [if plot:] body. *)
Definition block_1 (df : DataFrame) (w : Widgets) : script unit :=
  let sel := selected_state w in
  let fdf := filtered_df df sel in
  assign (set_view fdf (zoom_level sel) (center_lat df sel) (center_lon df sel)) ;;
  when (show_stats w)
    (st [ MetricCount "Total Districts" (len fdf);
          MetricAvg ("Avg " ++ primary w) (mean (col (primary w) fdf))
            (metric_delta df sel (primary w));
          MetricAvg ("Avg " ++ secondary w) (mean (col (secondary w) fdf))
            (metric_delta df sel (secondary w));
          MetricCount "States Covered" (nunique (map State (rows fdf))) ]) ;;
  st [MapChart (fig_map df sel)] ;;
  when (show_comparison w)
    (assign (set_top_districts (top_districts fdf (primary w))) ;;
     st [ BarChart (top_districts fdf (primary w));
          ScatterChart fdf (primary w) (secondary w)
            (if sel =? overall_india then "State" else primary w);
          Histogram fdf (primary w);
          Histogram fdf (secondary w) ]) ;;
  when (download w)
    (assign (set_csv (csv fdf)) ;;
     st [DownloadButton (csv fdf) (file_name sel)]) ;;
  t <- pandas "ValueError" (data_table fdf (primary w) (secondary w)) ;;
  st [DataTable t] ;;
  assign (set_stats_primary (stats_primary fdf (primary w))) ;;
  st [Summary (primary w ++ " Statistics") (stats_primary fdf (primary w))] ;;
  assign (set_stats_secondary (stats_secondary fdf (secondary w))) ;;
  st [Summary (secondary w ++ " Statistics") (stats_secondary fdf (secondary w))].

(** Lines 426-628, the second [if plot:] body. *)
Definition block_2 (df : DataFrame) (w : Widgets) : script unit :=
  let sel := selected_state w in
  let fdf := filtered_df df sel in
  assign (set_view fdf (zoom_level sel) (center_lat df sel) (center_lon df sel)) ;;
  when (show_stats w)
    (st [ MetricCount "Total Districts" (len fdf);
          MetricAvg ("Avg " ++ primary w) (mean (col (primary w) fdf))
            (metric_delta df sel (primary w));
          MetricAvg ("Avg " ++ secondary w) (mean (col (secondary w) fdf))
            (metric_delta df sel (secondary w));
          MetricCount "States Covered" (nunique (map State (rows fdf))) ]) ;;
  st [MapChart (fig_map df sel)] ;;
  when (show_comparison w)
    (assign (set_top_districts (top_districts fdf (primary w))) ;;
     st [ BarChart (top_districts fdf (primary w));
          ScatterChart fdf (primary w) (secondary w)
            (if sel =? overall_india then "State" else primary w);
          Histogram fdf (primary w);
          Histogram fdf (secondary w) ]) ;;
  when (download w)
    (assign (set_csv (csv fdf)) ;;
     st [DownloadButton (csv fdf) (file_name sel)]) ;;
  t <- pandas "ValueError" (data_table fdf (primary w) (secondary w)) ;;
  st [DataTable t] ;;
  assign (set_stats_primary (stats_primary fdf (primary w))) ;;
  st [Summary (primary w ++ " Statistics") (stats_primary fdf (primary w))] ;;
  assign (set_stats_secondary (stats_secondary fdf (secondary w))) ;;
  st [Summary (secondary w ++ " Statistics") (stats_secondary fdf (secondary w))].

(** Lines 373-423 and 630-680, the two [else:] bodies: the welcome screen. *)
Definition welcome (df : DataFrame) : script unit :=
  st [ Welcome (len df) (nunique (map State (rows df)))
         (List.length (numeric_columns df))
         (len df * List.length (numeric_columns df));
       Preview (firstn 10 (rows df)) ].

(** Lines 169-680. *)
Definition main_content (df : DataFrame) (w : Widgets) : script unit :=
  (if plot w then block_1 df w else welcome df) ;;
  (if plot w then block_2 df w else welcome df).

(** Lines 129-140: the option each select box shows before the user picks
    one, [None] when it has no option.  The first box starts at index 0,
    the second at [1 if len(numeric_columns) > 1 else 0]. *)
Definition secondary_index (options : list string) : nat :=
  if (1 <? List.length options)%nat then 1%nat else 0%nat.

Definition default_primary (df : DataFrame) : option string :=
  nth_error (numeric_columns df) 0.

Definition default_secondary (df : DataFrame) : option string :=
  nth_error (numeric_columns df) (secondary_index (numeric_columns df)).

End App.

Import F64 Python Pandas App.

(** ** Vocabulary of the statements *)

(** [l1] is [l2] with some elements left out, the others in their order. *)
Inductive subseq {A : Type} : list A -> list A -> Prop :=
| subseq_nil : subseq [] []
| subseq_skip : forall x l1 l2, subseq l1 l2 -> subseq l1 (x :: l2)
| subseq_keep : forall x l1 l2, subseq l1 l2 -> subseq (x :: l1) (x :: l2).

Definition prefix {A : Type} (l1 l2 : list A) : Prop :=
  exists rest, l2 = l1 ++ rest.

(** Two cells hold the same value (both NaN, or equal numbers). *)
Definition cell_eqb (a b : cell) : bool :=
  match a, b with
  | Some x, Some y => Qeq_bool x y
  | None, None => true
  | _, _ => false
  end.

(** [a] does not come after [b] in the descending order of the key, in
    which NaN is last. *)
Definition desc_by {A : Type} (key : A -> cell) (a b : A) : Prop :=
  cell_geb (key a) (key b) = true.

(** The elements of a list whose key has the value [c]. *)
Definition tied_by {A : Type} (key : A -> cell) (c : cell) (l : list A) : list A :=
  filter (fun r => cell_eqb (key r) c) l.

(** The arithmetic mean of numbers. *)
Definition arithmetic_mean (xs : list Q) : Q :=
  sum xs / of_nat (List.length xs).

(** What the map is centred on, and its zoom. *)
Definition center_and_zoom (df : DataFrame) (region : string) : float * float * Z :=
  (center_lat df region, center_lon df region, zoom_level region).

(** The [n] rows of a view with the largest values of an attribute. *)
Definition top_n (view : DataFrame) (attr : string) (n : nat) : list Row :=
  rows (nlargest n attr view).

(** The regions a view can be asked for: [list_of_states] without the
    sentinel. *)
Definition named_regions (df : DataFrame) : list string :=
  filter (fun s => negb (s =? overall_india)) (list_of_states df).

(** The rows of all the per-region views, one region after the other. *)
Definition union_of_views (df : DataFrame) : list Row :=
  List.concat (map (fun s => rows (filtered_df df s)) (named_regions df)).

(** Where a step of the script left the run, and the exception it ended
    on, if any. *)
Definition run_of {A : Type} (r : result A) : Run :=
  match r with
  | Ok _ s => s
  | Raised _ s => s
  end.

Definition raised {A : Type} (r : result A) : option string :=
  match r with
  | Ok _ _ => None
  | Raised exn _ => Some exn
  end.

(** Two results are the same number, the same infinity, or both NaN. *)
Definition same (x y : float) : Prop :=
  match x, y with
  | Fin a, Fin b => a == b
  | PInf, PInf | NInf, NInf | NaN, NaN => True
  | _, _ => False
  end.

(** The middle of an ascending list: its middle element, or half the sum
    of its two middle elements. *)
Definition median (v : list Q) : Q :=
  let n := List.length v in
  if Nat.even n
  then (nth (n / 2 - 1) v 0 + nth (n / 2) v 0) / 2
  else nth (n / 2) v 0.

(** A character occurs in a string. *)
Fixpoint has_char (c : ascii) (s : string) : bool :=
  match s with
  | EmptyString => false
  | String c' s' => Ascii.eqb c' c || has_char c s'
  end.

(** Reading a table back: the cell of a line under a label, the first
    column of that label if there are several. *)
Fixpoint index_of (label : string) (names : list string) : option nat :=
  match names with
  | [] => None
  | c :: names' =>
      if c =? label then Some 0%nat
      else option_map S (index_of label names')
  end.

Definition cell_at (t : Table) (label : string) (line : nat) : option value :=
  match index_of label (header t), nth_error (body t) line with
  | Some i, Some cells => nth_error cells i
  | _, _ => None
  end.

(** The frame has one column per label, and [State] and [District] are
    text: what [read_csv] gives for [india.csv]. *)
Definition well_formed (df : DataFrame) : Prop :=
  NoDup (map fst (dtypes df)) /\
  In ("State", Object) (dtypes df) /\
  In ("District", Object) (dtypes df).

(** The elements a body draws last: the table and the two summaries. *)
Definition table_or_summary (e : element) : bool :=
  match e with
  | DataTable _ | Summary _ _ => true
  | _ => false
  end.

(** The primary label is also the label of another column of the table on
    the screen. *)
Definition label_clash (w : Widgets) : Prop :=
  primary w = secondary w \/ primary w = "State" \/ primary w = "District".

(** The mean of a column over a view times the number of values it is
    the mean of; zero when there is none. *)
Definition weight (view : DataFrame) (attribute : string) : Q :=
  match mean (col attribute view) with
  | Fin m => of_nat (count (col attribute view)) * m
  | _ => 0
  end.

(** ** Frames to evaluate the script on *)
Module Examples.

Definition schema : list (string * dtype) :=
  [ ("State", Object); ("District", Object); ("Latitude", Number);
    ("Longitude", Number); ("pop", Number); ("growth", Number) ].

Definition district (state name : string) (lat lon pop growth : Q) : Row :=
  mkRow state name (Some lat) (Some lon)
    [ ("pop", VNum (Some pop)); ("growth", VNum (Some growth)) ].

(** Two regions, three districts. *)
Definition scenario : DataFrame :=
  mkDataFrame schema
    [ district "A" "dist1" 10 20 100 2;
      district "B" "dist2" 12 22 300 3;
      district "B" "dist3" 14 24 500 1 ].

(** [growth] has mean zero over the frame. *)
Definition balanced : DataFrame :=
  mkDataFrame schema
    [ district "A" "dist1" 10 20 100 1;
      district "B" "dist2" 12 22 300 (-1) ].

(** [growth] is zero everywhere. *)
Definition flat : DataFrame :=
  mkDataFrame schema
    [ district "A" "dist1" 10 20 100 0;
      district "B" "dist2" 12 22 300 0 ].

(** A district whose [State] reads as the sentinel. *)
Definition homonym : DataFrame :=
  mkDataFrame schema
    [ district "Overall India" "dist0" 10 20 100 1;
      district "A" "dist1" 12 22 300 2 ].

(** A blank [pop] cell. *)
Definition blank : DataFrame :=
  mkDataFrame schema
    [ district "A" "dist1" 10 20 100 1;
      mkRow "A" "dist2" (Some 12) (Some 22)
        [ ("pop", VNum None); ("growth", VNum (Some 2)) ] ].

Definition no_rows : DataFrame := mkDataFrame schema [].

Definition widgets : Widgets :=
  mkWidgets "B" "pop" "growth" true true true false.

End Examples.

Import Examples.

(** ** The filter *)

Lemma subseq_filter {A : Type} (p : A -> bool) (l : list A) :
  subseq (filter p l) l.
Proof.
  induction l as [|x l IH]; simpl.
  - constructor.
  - destruct (p x); now constructor.
Qed.

Lemma boolean_index_filter {A : Type} (p : A -> bool) (l : list A) :
  boolean_index l (map p l) = filter p l.
Proof.
  induction l as [|x l IH]; simpl; [reflexivity|].
  rewrite IH. reflexivity.
Qed.

Lemma state_mask (l : list Row) (s : string) :
  eq_mask (map State l) s = map (fun r => State r =? s) l.
Proof. unfold eq_mask. now rewrite map_map. Qed.

Lemma filtered_rows (df : DataFrame) (s : string) :
  s <> overall_india ->
  rows (filtered_df df s) = filter (fun r => State r =? s) (rows df).
Proof.
  intros Hs. unfold filtered_df.
  destruct (String.eqb_spec s overall_india) as [E|_]; [contradiction|].
  simpl. now rewrite state_mask, boolean_index_filter.
Qed.

(** C2.  With the sentinel ['Overall India'] the view is the whole frame,
    rows in their order; with any other region it holds exactly the rows
    whose [State] is that region, in the order they have in the frame. *)
Theorem filter_contract (df : DataFrame) (region : string) :
  filtered_df df overall_india = df /\
  (region <> overall_india ->
     rows (filtered_df df region) = filter (fun r => State r =? region) (rows df) /\
     (forall r, In r (rows (filtered_df df region)) <->
                In r (rows df) /\ State r = region) /\
     subseq (rows (filtered_df df region)) (rows df) /\
     dtypes (filtered_df df region) = dtypes df).
Proof.
  split; [reflexivity|].
  intros Hs. rewrite (filtered_rows df region Hs).
  split; [reflexivity|]. split; [|split].
  - intros r. rewrite filter_In, String.eqb_eq. tauto.
  - apply subseq_filter.
  - unfold filtered_df.
    destruct (String.eqb_spec region overall_india); [contradiction|reflexivity].
Qed.

(** ** [sorted]: a permutation, in order, stable *)
Section Sorting.

Context {A : Type}.
Variable leb : A -> A -> bool.

Let R (x y : A) : Prop := leb x y = true.

Lemma insert_perm (x : A) (l : list A) : Permutation (x :: l) (insert leb x l).
Proof.
  induction l as [|y l IH]; simpl; [apply Permutation_refl|].
  destruct (leb x y); [apply Permutation_refl|].
  eapply Permutation_trans; [apply perm_swap|]. now apply perm_skip.
Qed.

Lemma sorted_perm (l : list A) : Permutation l (sorted leb l).
Proof.
  induction l as [|x l IH]; simpl; [constructor|].
  eapply Permutation_trans; [apply perm_skip, IH|]. apply insert_perm.
Qed.

Lemma sorted_length (l : list A) : List.length (sorted leb l) = List.length l.
Proof. symmetry. apply Permutation_length, sorted_perm. Qed.

Lemma sorted_In (x : A) (l : list A) : In x (sorted leb l) <-> In x l.
Proof.
  split; apply Permutation_in;
    [apply Permutation_sym|]; apply sorted_perm.
Qed.

(** Elements of one class, none of which goes past another of the class,
    come out of [sorted] in the order they went in. *)
Lemma insert_stable (p : A -> bool) (x : A) (l : list A) :
  (forall y, p x = true -> p y = true -> leb x y = true) ->
  filter p (insert leb x l) = filter p (x :: l).
Proof.
  intros Hc. induction l as [|y l IH]; [reflexivity|].
  simpl insert. destruct (leb x y) eqn:E; [reflexivity|].
  simpl in *. rewrite IH.
  destruct (p x) eqn:Px; [|reflexivity].
  destruct (p y) eqn:Py; [|reflexivity].
  rewrite (Hc y eq_refl Py) in E. discriminate.
Qed.

Lemma sorted_stable (p : A -> bool) (l : list A) :
  (forall x y, p x = true -> p y = true -> leb x y = true) ->
  filter p (sorted leb l) = filter p l.
Proof.
  intros Hc. induction l as [|x l IH]; [reflexivity|].
  simpl sorted. rewrite insert_stable by (intros; now apply Hc).
  simpl. now rewrite IH.
Qed.

Hypothesis leb_total : forall x y, leb x y = true \/ leb y x = true.

Lemma insert_sorted (x : A) (l : list A) :
  Sorted R l -> Sorted R (insert leb x l).
Proof.
  induction 1 as [|y l Hs IH Hd]; simpl; [repeat constructor|].
  destruct (leb x y) eqn:E.
  - constructor; [now constructor|]. now constructor.
  - constructor; [exact IH|].
    destruct l as [|z l]; simpl.
    + constructor. destruct (leb_total x y) as [H|H]; [congruence|exact H].
    + destruct (leb x z); constructor.
      * destruct (leb_total x y) as [H|H]; [congruence|exact H].
      * now inversion Hd.
Qed.

Lemma sorted_Sorted (l : list A) : Sorted R (sorted leb l).
Proof.
  induction l as [|x l IH]; simpl; [constructor|]. now apply insert_sorted.
Qed.

Hypothesis leb_trans :
  forall x y z, leb x y = true -> leb y z = true -> leb x z = true.

Lemma sorted_StronglySorted (l : list A) : StronglySorted R (sorted leb l).
Proof.
  apply Sorted_StronglySorted; [|apply sorted_Sorted].
  intros x y z. apply leb_trans.
Qed.

Lemma filter_StronglySorted (p : A -> bool) (l : list A) :
  StronglySorted R l -> StronglySorted R (filter p l).
Proof.
  induction 1 as [|x l Hs IH Hall]; simpl; [constructor|].
  destruct (p x); [|exact IH].
  constructor; [exact IH|].
  rewrite Forall_forall in *. intros y Hy. apply filter_In in Hy.
  now apply Hall.
Qed.

Lemma firstn_StronglySorted (n : nat) (l : list A) :
  StronglySorted R l -> StronglySorted R (firstn n l).
Proof.
  intros H. revert n. induction H as [|x l Hs IH Hall]; intros [|n]; simpl;
    try constructor.
  - apply IH.
  - rewrite Forall_forall in *. intros y Hy. apply Hall.
    rewrite <- (firstn_skipn n l). apply in_or_app. now left.
Qed.

End Sorting.

(** ** The descending order of cells *)

Lemma cell_geb_total (a b : cell) : cell_geb a b = true \/ cell_geb b a = true.
Proof.
  destruct a as [x|], b as [y|]; simpl; auto.
  rewrite !Qle_bool_iff. destruct (Qlt_le_dec x y) as [H|H]; [right|left]; lra.
Qed.

Lemma cell_geb_trans (a b c : cell) :
  cell_geb a b = true -> cell_geb b c = true -> cell_geb a c = true.
Proof.
  destruct a as [x|], b as [y|], c as [z|]; simpl; try congruence.
  rewrite !Qle_bool_iff. lra.
Qed.

Lemma cell_eqb_geb (a b c : cell) :
  cell_eqb a c = true -> cell_eqb b c = true -> cell_geb a b = true.
Proof.
  destruct a as [x|], b as [y|], c as [z|]; simpl; try congruence.
  rewrite !Qeq_bool_iff, Qle_bool_iff. intros -> ->. lra.
Qed.

Lemma cell_eqb_notna (a c : cell) :
  cell_eqb a c = true -> notna a = notna c.
Proof. destruct a, c; simpl; congruence. Qed.

(** ** Lists cut in two *)

Lemma partition_perm {A : Type} (p : A -> bool) (l : list A) :
  Permutation (filter p l ++ filter (fun x => negb (p x)) l) l.
Proof.
  induction l as [|x l IH]; simpl; [constructor|].
  destruct (p x); simpl.
  - now constructor.
  - apply Permutation_sym, Permutation_cons_app, Permutation_sym, IH.
Qed.

Lemma filter_filter_keep {A : Type} (p q : A -> bool) (l : list A) :
  (forall x, p x = true -> q x = true) ->
  filter p (filter q l) = filter p l.
Proof.
  intros H. induction l as [|x l IH]; simpl; [reflexivity|].
  destruct (q x) eqn:Q; simpl; rewrite IH; [reflexivity|].
  destruct (p x) eqn:P; [|reflexivity].
  rewrite (H x P) in Q. discriminate.
Qed.

Lemma filter_filter_none {A : Type} (p q : A -> bool) (l : list A) :
  (forall x, p x = true -> q x = false) ->
  filter p (filter q l) = [].
Proof.
  intros H. induction l as [|x l IH]; simpl; [reflexivity|].
  destruct (q x) eqn:Q; simpl; rewrite IH; [|reflexivity].
  destruct (p x) eqn:P; [|reflexivity].
  rewrite (H x P) in Q. discriminate.
Qed.

Lemma prefix_firstn_filter {A : Type} (p : A -> bool) (n : nat) (l : list A) :
  prefix (filter p (firstn n l)) (filter p l).
Proof.
  exists (filter p (skipn n l)).
  rewrite <- filter_app. now rewrite firstn_skipn.
Qed.

Lemma StronglySorted_app {A : Type} (R : A -> A -> Prop) (l1 l2 : list A) :
  StronglySorted R l1 -> StronglySorted R l2 ->
  (forall a b, In a l1 -> In b l2 -> R a b) ->
  StronglySorted R (l1 ++ l2).
Proof.
  induction 1 as [|x l1 Hs IH Hall]; intros H2 Hc; simpl; [exact H2|].
  constructor.
  - apply IH; [exact H2|]. intros a b Ha Hb. apply Hc; simpl; auto.
  - rewrite Forall_forall in *. intros y Hy. apply in_app_or in Hy.
    destruct Hy as [Hy|Hy]; [now apply Hall|]. apply Hc; simpl; auto.
Qed.

Lemma StronglySorted_split {A : Type} (R : A -> A -> Prop) (l1 l2 : list A) :
  StronglySorted R (l1 ++ l2) ->
  forall a b, In a l1 -> In b l2 -> R a b.
Proof.
  induction l1 as [|x l1 IH]; simpl; intros H a b Ha Hb; [contradiction|].
  inversion H as [|? ? Hs Hall]; subst.
  destruct Ha as [<-|Ha].
  - rewrite Forall_forall in Hall. apply Hall, in_or_app. now right.
  - now apply IH.
Qed.

Lemma all_tied_StronglySorted {A : Type} (R : A -> A -> Prop) (l : list A) :
  (forall a b, In a l -> In b l -> R a b) -> StronglySorted R l.
Proof.
  induction l as [|x l IH]; intros H; constructor.
  - apply IH. intros a b Ha Hb. apply H; simpl; auto.
  - rewrite Forall_forall. intros y Hy. apply H; simpl; auto.
Qed.

(** ** [sort_desc] and [nlargest] *)
Section SortDesc.

Context {A : Type}.
Variable key : A -> cell.
Variable l : list A.

Lemma sort_desc_perm : Permutation (sort_desc key l) l.
Proof.
  unfold sort_desc.
  eapply Permutation_trans;
    [|apply (partition_perm (fun r => notna (key r)))].
  apply Permutation_app_tail, Permutation_sym, sorted_perm.
Qed.

Lemma sort_desc_sorted : StronglySorted (desc_by key) (sort_desc key l).
Proof.
  unfold sort_desc. apply StronglySorted_app.
  - apply (sorted_StronglySorted (fun a b => cell_geb (key a) (key b))).
    + intros x y. apply cell_geb_total.
    + intros x y z. apply cell_geb_trans.
  - apply all_tied_StronglySorted. intros a b Ha Hb.
    apply filter_In in Ha, Hb. destruct Ha as [_ Ha], Hb as [_ Hb].
    unfold desc_by, isna in *.
    destruct (key a), (key b); simpl in *; congruence.
  - intros a b Ha Hb. apply sorted_In, filter_In in Ha.
    apply filter_In in Hb. destruct Ha as [_ Ha], Hb as [_ Hb].
    unfold desc_by, isna in *.
    destruct (key a), (key b); simpl in *; congruence.
Qed.

Lemma sort_desc_tied (c : cell) :
  tied_by key c (sort_desc key l) = tied_by key c l.
Proof.
  unfold tied_by, sort_desc. rewrite filter_app.
  rewrite sorted_stable
    by (intros x y Hx Hy; exact (cell_eqb_geb _ _ _ Hx Hy)).
  unfold isna. destruct (notna c) eqn:Hc.
  - rewrite filter_filter_keep, filter_filter_none, app_nil_r.
    + reflexivity.
    + intros x Hx. apply cell_eqb_notna in Hx. now rewrite Hx, Hc.
    + intros x Hx. apply cell_eqb_notna in Hx. now rewrite Hx, Hc.
  - rewrite filter_filter_none, filter_filter_keep.
    + reflexivity.
    + intros x Hx. apply cell_eqb_notna in Hx. now rewrite Hx, Hc.
    + intros x Hx. apply cell_eqb_notna in Hx. now rewrite Hx, Hc.
Qed.

End SortDesc.

Lemma nlargest_rows (n : nat) (name : string) (df : DataFrame) :
  rows (nlargest n name df) = firstn n (sort_desc (num name) (rows df)).
Proof. reflexivity. Qed.


(** ** The order of [sorted] on strings *)

Lemma string_leb_trans (s1 s2 s3 : string) :
  String.leb s1 s2 = true -> String.leb s2 s3 = true -> String.leb s1 s3 = true.
Proof.
  unfold String.leb. revert s2 s3.
  induction s1 as [|a s1 IH]; intros [|b s2] [|c s3]; simpl; try congruence.
  unfold Ascii.compare.
  destruct (N.compare_spec (N_of_ascii a) (N_of_ascii b)),
           (N.compare_spec (N_of_ascii b) (N_of_ascii c)),
           (N.compare_spec (N_of_ascii a) (N_of_ascii c));
    try congruence; try lia; apply IH.
Qed.

Lemma sorted_strings (l : list string) :
  StronglySorted (fun a b => String.leb a b = true) (sorted String.leb l).
Proof.
  apply sorted_StronglySorted.
  - apply String.leb_total.
  - apply string_leb_trans.
Qed.

(** ** [unique] *)

Lemma existsb_eqb (x : string) (l : list string) :
  existsb (String.eqb x) l = true <-> In x l.
Proof.
  rewrite existsb_exists. split.
  - intros [y [Hy E]]. apply String.eqb_eq in E. now subst.
  - intros H. exists x. split; [exact H|apply String.eqb_refl].
Qed.

Lemma unique_from_In (x : string) (s seen : list string) :
  In x (unique_from seen s) <-> In x s /\ ~ In x seen.
Proof.
  revert seen. induction s as [|y s IH]; intros seen; simpl; [tauto|].
  destruct (existsb (String.eqb y) seen) eqn:E.
  - apply existsb_eqb in E. rewrite IH. split.
    + tauto.
    + intros [[->|H] Hn]; [contradiction|tauto].
  - assert (Hy : ~ In y seen) by (rewrite <- existsb_eqb; congruence).
    simpl. rewrite IH. simpl. split.
    + intros [->|[H Hn]]; [tauto|]. split; [tauto|]. intros Hx. apply Hn. now right.
    + intros [[->|H] Hn]; [now left|].
      destruct (String.eqb_spec y x) as [->|Hne]; [now left|]. right.
      split; [exact H|]. intros [Hx|Hx]; [contradiction|contradiction].
Qed.

Lemma unique_from_NoDup (s seen : list string) : NoDup (unique_from seen s).
Proof.
  revert seen. induction s as [|y s IH]; intros seen; simpl; [constructor|].
  destruct (existsb (String.eqb y) seen); [apply IH|].
  constructor; [|apply IH].
  rewrite unique_from_In. simpl. tauto.
Qed.

Lemma unique_In (x : string) (s : list string) : In x (unique s) <-> In x s.
Proof. unfold unique. rewrite unique_from_In. simpl. tauto. Qed.

Lemma unique_NoDup (s : list string) : NoDup (unique s).
Proof. apply unique_from_NoDup. Qed.

Lemma select_dtypes_number_In (c : string) (df : DataFrame) :
  In c (select_dtypes_number df) <-> In (c, Number) (dtypes df).
Proof.
  unfold select_dtypes_number. rewrite in_map_iff. split.
  - intros [[c' d] [E H]]. simpl in E. subst c'.
    apply filter_In in H. destruct H as [H Hd]. now destruct d.
  - intros H. exists (c, Number). split; [reflexivity|].
    apply filter_In. now split.
Qed.


(** ** [mean] *)

Lemma dropna_present (xs : list Q) : dropna (map Some xs) = xs.
Proof. induction xs as [|x xs IH]; simpl; congruence. Qed.

Lemma mean_present (xs : list Q) :
  xs <> [] -> mean (map Some xs) = Fin (arithmetic_mean xs).
Proof.
  intros H. unfold mean. rewrite dropna_present.
  destruct xs; [contradiction|reflexivity].
Qed.

Lemma mean_cases (s : list cell) :
  mean s = NaN \/ exists m, mean s = Fin m.
Proof. unfold mean. destruct (dropna s); eauto. Qed.

Lemma col_Latitude (df : DataFrame) : col "Latitude" df = map Latitude (rows df).
Proof. reflexivity. Qed.

Lemma col_Longitude (df : DataFrame) : col "Longitude" df = map Longitude (rows df).
Proof. reflexivity. Qed.

Lemma not_sentinel (s : string) : s <> overall_india -> (s =? overall_india) = false.
Proof. apply String.eqb_neq. Qed.



(** Region B of [scenario] holds its two districts, in the frame's order. *)
Lemma filter_contract_witness :
  rows (filtered_df scenario "B") =
    filter (fun r => State r =? "B") (rows scenario) /\
  subseq (rows (filtered_df scenario "B")) (rows scenario).
Proof.
  destruct (proj2 (filter_contract scenario "B")) as [H1 [_ [H3 _]]].
  - discriminate.
  - split; [exact H1|exact H3].
Defined.

(** ** The delta of the metrics *)

Lemma is_zero_iff (q : Q) : is_zero q = true <-> q == 0.
Proof.
  unfold is_zero, Qeq. simpl. rewrite Z.eqb_eq, Z.mul_1_r. reflexivity.
Qed.

Lemma inf_like_cases (q : Q) : inf_like q = PInf \/ inf_like q = NInf.
Proof. unfold inf_like. destruct (is_pos q); auto. Qed.

(** A quotient by zero, less one, times a hundred: an infinity or NaN. *)
Lemma percent_of_zero_division (x : float) (g : Q) :
  g == 0 ->
  (x = NaN \/ exists m, x = Fin m) ->
  In (mul (sub (div x (Fin g)) (Fin 1)) (Fin 100)) [PInf; NInf; NaN].
Proof.
  intros Hg Hx. apply is_zero_iff in Hg.
  destruct Hx as [->|[m ->]]; simpl; [tauto|].
  rewrite Hg. destruct (is_zero m); simpl; [tauto|].
  destruct (inf_like_cases m) as [-> | ->]; simpl; tauto.
Qed.




(** ** Views with no row *)

Lemma nlargest_no_rows (n : nat) (name : string) (view : DataFrame) :
  rows view = [] -> rows (nlargest n name view) = [].
Proof.
  intros H. unfold nlargest, sort_desc. simpl. rewrite H. simpl. now destruct n.
Qed.

Lemma filtered_nonempty (df : DataFrame) (s : string) :
  s <> overall_india -> In s (list_of_states df) ->
  rows (filtered_df df s) <> [].
Proof.
  intros Hs Hin. rewrite (filtered_rows df s Hs).
  destruct Hin as [E|Hin]; [congruence|].
  apply sorted_In, unique_In, in_map_iff in Hin.
  destruct Hin as [r [E Hr]].
  assert (K : In r (filter (fun r => State r =? s) (rows df))).
  { apply filter_In. split; [exact Hr|]. now apply String.eqb_eq. }
  intros Hnil. rewrite Hnil in K. exact K.
Qed.




(** ** The views of the regions, put together *)

Lemma views_perm (keys : list string) (l : list Row) :
  NoDup keys ->
  (forall r, In r l -> In (State r) keys) ->
  Permutation
    (List.concat (map (fun k => filter (fun r => State r =? k) l) keys)) l.
Proof.
  intros Hnd. revert l. induction Hnd as [|k ks Hk Hnd IH]; intros l Hcov.
  - destruct l as [|r l]; [constructor|]. destruct (Hcov r); simpl; auto.
  - simpl.
    eapply Permutation_trans; [|apply (partition_perm (fun r => State r =? k))].
    apply Permutation_app_head.
    rewrite (map_ext_in _
      (fun k' => filter (fun r => State r =? k')
                   (filter (fun r => negb (State r =? k)) l))).
    + apply IH. intros r Hr. apply filter_In in Hr. destruct Hr as [Hr Hne].
      destruct (Hcov r Hr) as [E|H]; [|exact H].
      subst k. now rewrite String.eqb_refl in Hne.
    + intros k' Hk'. symmetry. apply filter_filter_keep.
      intros r Hr. apply String.eqb_eq in Hr. subst k'.
      apply negb_true_iff, String.eqb_neq. intros E. apply Hk. now rewrite <- E.
Qed.

Lemma named_regions_In (df : DataFrame) (s : string) :
  In s (named_regions df) <->
  s <> overall_india /\ exists r, In r (rows df) /\ State r = s.
Proof.
  unfold named_regions, list_of_states.
  rewrite filter_In, negb_true_iff, String.eqb_neq. simpl.
  rewrite sorted_In, unique_In, in_map_iff. split.
  - intros [[E|[r [E Hr]]] Hs]; [congruence|]. split; [exact Hs|]. now exists r.
  - intros [Hs [r [Hr E]]]. split; [|exact Hs]. right. now exists r.
Qed.

Lemma named_regions_NoDup (df : DataFrame) : NoDup (named_regions df).
Proof.
  unfold named_regions, list_of_states. cbn [filter].
  rewrite String.eqb_refl. cbn [negb]. apply NoDup_filter.
  eapply Permutation_NoDup; [apply sorted_perm|apply unique_NoDup].
Qed.

Lemma union_of_views_perm (df : DataFrame) :
  Permutation (union_of_views df)
    (filter (fun r => negb (State r =? overall_india)) (rows df)).
Proof.
  unfold union_of_views.
  rewrite (map_ext_in _
    (fun k => filter (fun r => State r =? k)
                (filter (fun r => negb (State r =? overall_india)) (rows df)))).
  - apply views_perm; [apply named_regions_NoDup|].
    intros r Hr. apply filter_In in Hr. destruct Hr as [Hr Hne].
    apply named_regions_In. split.
    + apply String.eqb_neq. now apply negb_true_iff.
    + now exists r.
  - intros k Hk. apply named_regions_In in Hk. destruct Hk as [Hk _].
    rewrite (filtered_rows df k Hk). symmetry. apply filter_filter_keep.
    intros r Hr. apply String.eqb_eq in Hr. subst k.
    now apply negb_true_iff, String.eqb_neq.
Qed.

Lemma filter_all {A : Type} (p : A -> bool) (l : list A) :
  (forall x, In x l -> p x = true) -> filter p l = l.
Proof.
  induction l as [|x l IH]; intros H; simpl; [reflexivity|].
  rewrite (H x) by (now left). rewrite IH; [reflexivity|].
  intros y Hy. apply H. now right.
Qed.

(** C8, as the script has it.  The view of a named region holds only rows
    of that region, and no two named regions are the same.  Put together,
    the views of the named regions hold each row whose [State] is not the
    sentinel string once, and no other; they make up the whole frame when
    no row has the sentinel string as its [State]. *)
Theorem partition_contract (df : DataFrame) :
  (forall s r, In s (named_regions df) -> In r (rows (filtered_df df s)) ->
               In r (rows df) /\ State r = s) /\
  NoDup (named_regions df) /\
  Permutation (union_of_views df)
    (filter (fun r => negb (State r =? overall_india)) (rows df)) /\
  ((forall r, In r (rows df) -> State r <> overall_india) ->
   Permutation (union_of_views df) (rows df)).
Proof.
  split; [|split; [|split]].
  - intros s r Hs Hr. apply named_regions_In in Hs. destruct Hs as [Hs _].
    rewrite (filtered_rows df s Hs), filter_In, String.eqb_eq in Hr. exact Hr.
  - apply named_regions_NoDup.
  - apply union_of_views_perm.
  - intros H. eapply Permutation_trans; [apply union_of_views_perm|].
    rewrite filter_all; [apply Permutation_refl|].
    intros r Hr. now apply negb_true_iff, String.eqb_neq, H.
Qed.

(** The views of regions A and B of [scenario] make up [scenario]. *)
Lemma partition_witness :
  Permutation (union_of_views scenario) (rows scenario) /\
  State (district "B" "dist2" 12 22 300 3) = "B".
Proof.
  destruct (partition_contract scenario) as [H1 [_ [_ H4]]].
  split.
  - apply H4. intros r Hr. simpl in Hr.
    destruct Hr as [<-|[<-|[<-|[]]]]; discriminate.
  - apply (H1 "B" (district "B" "dist2" 12 22 300 3)).
    + simpl. auto.
    + simpl. auto.
Defined.

(** C8 fails on the script: in [homonym] a district has the sentinel
    string as its [State].  The only named region is A, and the views of
    the named regions hold one of the two rows; asked for by its name,
    the region of the other row gives the whole frame, the row of A
    included. *)
Lemma partition_counterexample :
  list_of_states homonym = ["Overall India"; "A"; "Overall India"] /\
  named_regions homonym = ["A"] /\
  List.length (union_of_views homonym) = 1%nat /\
  List.length (rows homonym) = 2%nat /\
  ~ Permutation (union_of_views homonym) (rows homonym) /\
  map State (rows (filtered_df homonym "Overall India")) = ["Overall India"; "A"].
Proof.
  split; [reflexivity|]. split; [reflexivity|]. split; [reflexivity|].
  split; [reflexivity|]. split; [|reflexivity].
  intros H. apply Permutation_length in H. discriminate H.
Qed.

(** ** Quantiles by linear interpolation *)

Lemma StronglySorted_impl {A : Type} (R R' : A -> A -> Prop) (l : list A) :
  (forall a b, R a b -> R' a b) -> StronglySorted R l -> StronglySorted R' l.
Proof.
  intros H. induction 1 as [|x l Hs IH Hall]; constructor; [exact IH|].
  eapply Forall_impl; [|exact Hall]. intros y. apply H.
Qed.

Lemma sorted_ascending (xs : list Q) : StronglySorted Qle (sorted Qle_bool xs).
Proof.
  apply (StronglySorted_impl (fun a b => Qle_bool a b = true)).
  - intros a b. apply Qle_bool_iff.
  - apply sorted_StronglySorted.
    + intros x y. rewrite !Qle_bool_iff.
      destruct (Qlt_le_dec x y); [left|right]; lra.
    + intros x y z. rewrite !Qle_bool_iff. lra.
Qed.

Lemma nth_ascending (v : list Q) :
  StronglySorted Qle v ->
  forall i j, (i <= j < List.length v)%nat -> nth i v 0 <= nth j v 0.
Proof.
  induction 1 as [|x v Hs IH Hall]; intros i j Hij; simpl in Hij; [lia|].
  destruct i as [|i], j as [|j]; simpl; try lia.
  - lra.
  - rewrite Forall_forall in Hall. apply Hall, nth_In. lia.
  - apply IH. lia.
Qed.

Section Lerp.

Variable v : list Q.
Hypothesis v_sorted : StronglySorted Qle v.
Hypothesis v_rows : (0 < List.length v)%nat.

Let top : Q := of_nat (List.length v - 1).

Lemma floor_in_range (pos : Q) :
  0 <= pos <= top ->
  (0 <= Qfloor pos <= Z.of_nat (List.length v - 1))%Z.
Proof.
  intros [H0 H1]. split.
  - change 0%Z with (Qfloor 0). now apply Qfloor_resp_le.
  - rewrite <- (Qfloor_Z (Z.of_nat (List.length v - 1))).
    now apply Qfloor_resp_le.
Qed.

Lemma gamma_in_range (pos : Q) : 0 <= gamma pos <= 1.
Proof.
  unfold gamma.
  pose proof (Qfloor_le pos) as H1. pose proof (Qlt_floor pos) as H2.
  rewrite inject_Z_plus in H2. change (inject_Z 1) with 1 in H2. lra.
Qed.

Lemma index_in_range (pos : Q) :
  0 <= pos <= top ->
  (previous_index pos <= next_index (List.length v) pos < List.length v)%nat.
Proof.
  intros H. apply floor_in_range in H. unfold next_index, previous_index. lia.
Qed.

Lemma lerp_bounds (pos : Q) :
  0 <= pos <= top ->
  nth (previous_index pos) v 0 <= lerp v pos <=
  nth (next_index (List.length v) pos) v 0.
Proof.
  intros H. pose proof (index_in_range pos H) as Hlh.
  pose proof (nth_ascending v v_sorted _ _ Hlh) as Hab.
  pose proof (gamma_in_range pos) as Hf.
  unfold lerp.
  set (a := nth (previous_index pos) v 0) in *.
  set (b := nth (next_index (List.length v) pos) v 0) in *.
  set (f := gamma pos) in *.
  split; nra.
Qed.

Lemma lerp_ascending (p1 p2 : Q) :
  0 <= p1 -> p1 <= p2 -> p2 <= top -> lerp v p1 <= lerp v p2.
Proof.
  intros H0 H12 H2.
  assert (R1 : 0 <= p1 <= top) by lra.
  assert (R2 : 0 <= p2 <= top) by lra.
  pose proof (Qfloor_resp_le _ _ H12) as Hfl.
  pose proof (floor_in_range p1 R1) as F1.
  pose proof (floor_in_range p2 R2) as F2.
  destruct (Z.eq_dec (Qfloor p1) (Qfloor p2)) as [E|NE].
  - pose proof (index_in_range p1 R1) as Hlh.
    pose proof (nth_ascending v v_sorted _ _ Hlh) as Hab.
    pose proof (gamma_in_range p1) as Hf1.
    pose proof (gamma_in_range p2) as Hf2.
    unfold lerp, next_index, previous_index, gamma in *. rewrite <- E.
    set (a := nth (Z.to_nat (Qfloor p1)) v 0) in *.
    set (b := nth _ v 0) in *.
    set (i := inject_Z (Qfloor p1)) in *. rewrite <- E in Hf2. fold i in Hf2.
    nra.
  - pose proof (lerp_bounds p1 R1) as [_ B1].
    pose proof (lerp_bounds p2 R2) as [B2 _].
    assert (Hidx : (next_index (List.length v) p1 <= previous_index p2
                    < List.length v)%nat).
    { pose proof (index_in_range p2 R2).
      unfold next_index, previous_index in *. lia. }
    pose proof (nth_ascending v v_sorted _ _ Hidx). lra.
Qed.

End Lerp.

Lemma fold_min_le (l : list Q) (a : Q) :
  fold_left Qmin l a <= a /\ forall y, In y l -> fold_left Qmin l a <= y.
Proof.
  revert a. induction l as [|x l IH]; intros a; simpl.
  - split; [lra|tauto].
  - destruct (IH (Qmin a x)) as [H1 H2].
    pose proof (Q.le_min_l a x). pose proof (Q.le_min_r a x).
    split; [lra|]. intros y [<-|Hy]; [lra|now apply H2].
Qed.

Lemma fold_max_ge (l : list Q) (a : Q) :
  a <= fold_left Qmax l a /\ forall y, In y l -> y <= fold_left Qmax l a.
Proof.
  revert a. induction l as [|x l IH]; intros a; simpl.
  - split; [lra|tauto].
  - destruct (IH (Qmax a x)) as [H1 H2].
    pose proof (Q.le_max_l a x). pose proof (Q.le_max_r a x).
    split; [lra|]. intros y [<-|Hy]; [lra|now apply H2].
Qed.

(** ** [describe] *)

Lemma of_nat_nonneg (n : nat) : 0 <= of_nat n.
Proof.
  unfold of_nat. change 0 with (inject_Z 0). rewrite <- Zle_Qle. lia.
Qed.

Lemma count_notna {A : Type} (f : A -> cell) (l : list A) :
  count (map f l) = List.length (filter (fun r => notna (f r)) l).
Proof.
  unfold count. induction l as [|r l IH]; simpl; [reflexivity|].
  destruct (f r); simpl; congruence.
Qed.

Lemma five_numbers (y : Q) (ys : list Q) :
  let v := sorted Qle_bool (y :: ys) in
  let p := fun q : Q => q * of_nat (List.length (y :: ys) - 1) in
  fold_left Qmin ys y <= lerp v (p (1 # 4)) /\
  lerp v (p (1 # 4)) <= lerp v (p (1 # 2)) /\
  lerp v (p (1 # 2)) <= lerp v (p (3 # 4)) /\
  lerp v (p (3 # 4)) <= fold_left Qmax ys y.
Proof.
  intros v p.
  assert (Hs : StronglySorted Qle v) by apply sorted_ascending.
  assert (Hlen : List.length v = List.length (y :: ys)) by apply sorted_length.
  assert (Hpos : (0 < List.length v)%nat) by (rewrite Hlen; simpl; lia).
  pose proof (of_nat_nonneg (List.length (y :: ys) - 1)) as Htop.
  assert (Hin : forall i, (i < List.length v)%nat ->
                fold_left Qmin ys y <= nth i v 0 <= fold_left Qmax ys y).
  { intros i Hi. pose proof (nth_In v 0 Hi) as H.
    apply sorted_In in H.
    destruct (fold_min_le ys y) as [m1 m2], (fold_max_ge ys y) as [M1 M2].
    destruct H as [<-|H]; [lra|]. split; [now apply m2|now apply M2]. }
  assert (R : forall q, 0 <= q <= 1 ->
              0 <= p q <= of_nat (List.length v - 1)).
  { intros q Hq. unfold p. rewrite Hlen.
    set (t := of_nat (List.length (y :: ys) - 1)) in *. split; nra. }
  assert (M : forall q1 q2, 0 <= q1 -> q1 <= q2 -> q2 <= 1 ->
              lerp v (p q1) <= lerp v (p q2)).
  { intros q1 q2 H0 H12 H1. apply (lerp_ascending v Hs Hpos).
    - apply R. lra.
    - unfold p. set (t := of_nat (List.length (y :: ys) - 1)) in *. nra.
    - apply R. lra. }
  split; [|split; [|split]].
  - assert (Rq : 0 <= p (1 # 4) <= of_nat (List.length v - 1)) by (apply R; lra).
    pose proof (lerp_bounds v Hs Hpos _ Rq) as [B _].
    pose proof (index_in_range v Hpos _ Rq) as L.
    assert (Hl : (previous_index (p (1 # 4)) < List.length v)%nat) by lia.
    pose proof (Hin _ Hl). lra.
  - apply M; lra.
  - apply M; lra.
  - assert (Rq : 0 <= p (3 # 4) <= of_nat (List.length v - 1)) by (apply R; lra).
    pose proof (lerp_bounds v Hs Hpos _ Rq) as [_ B].
    pose proof (index_in_range v Hpos _ Rq) as [_ L].
    pose proof (Hin _ L). lra.
Qed.




(** ** The export and the table on the screen *)

Lemma replace_length (old new : ascii) (s : string) :
  String.length (replace old new s) = String.length s.
Proof. induction s as [|c s IH]; simpl; congruence. Qed.

Lemma replace_get (old new : ascii) (s : string) (i : nat) :
  String.get i (replace old new s) =
  option_map (fun c => if Ascii.eqb c old then new else c) (String.get i s).
Proof.
  revert i. induction s as [|c s IH]; intros i; simpl; [reflexivity|].
  destruct i as [|i]; [reflexivity|apply IH].
Qed.

Lemma replace_no_space (s : string) (i : nat) :
  String.get i (replace " " "_" s) <> Some " "%char.
Proof.
  rewrite replace_get. destruct (String.get i s) as [c|]; simpl; [|discriminate].
  destruct (Ascii.eqb_spec c " "); [discriminate|congruence].
Qed.

Lemma positions_screen (primary secondary : string) :
  primary <> secondary -> primary <> "State" -> primary <> "District" ->
  positions primary ["State"; "District"; primary; secondary] 0 = [2%nat].
Proof.
  intros H1 H2 H3. cbn [positions].
  assert (E1 : ("State" =? primary) = false) by (apply String.eqb_neq; congruence).
  assert (E2 : ("District" =? primary) = false) by (apply String.eqb_neq; congruence).
  assert (E3 : (secondary =? primary) = false) by (apply String.eqb_neq; congruence).
  now rewrite E1, E2, E3, String.eqb_refl.
Qed.

(** C6, as the script has it.  The export is [to_csv] of the current view:
    every column of the frame, one line per row, in the view's order.  The
    file name is [india_census_], the selected region with each space
    turned into an underscore, and [.csv].  The columns State, District,
    primary and secondary by descending primary are the table on the
    screen, which exists when primary is a label of its own there. *)
Theorem export_contract (view : DataFrame)
    (selected_state primary secondary : string) :
  header (csv view) = map fst (dtypes view) /\
  body (csv view) =
    map (fun r => map (fun c => field c r) (map fst (dtypes view))) (rows view) /\
  List.length (body (csv view)) = len view /\
  file_name selected_state =
    ("india_census_" ++ replace " " "_" selected_state ++ ".csv")%string /\
  String.length (replace " " "_" selected_state) = String.length selected_state /\
  (forall i,
      String.get i (replace " " "_" selected_state) <> Some " "%char /\
      String.get i (replace " " "_" selected_state) =
        option_map (fun c => if Ascii.eqb c " " then "_"%char else c)
          (String.get i selected_state)) /\
  (primary <> secondary -> primary <> "State" -> primary <> "District" ->
   exists t,
     data_table view primary secondary = Some t /\
     header t = ["State"; "District"; primary; secondary] /\
     Permutation (body t)
       (body (select ["State"; "District"; primary; secondary] view)) /\
     StronglySorted (desc_by (at_position 2)) (body t)).
Proof.
  split; [reflexivity|]. split; [reflexivity|].
  split; [unfold csv, to_csv, select, len; simpl; now rewrite length_map|].
  split; [reflexivity|]. split; [apply replace_length|].
  split; [intros i; split; [apply replace_no_space|apply replace_get]|].
  intros H1 H2 H3. unfold data_table, sort_values_desc.
  cbn [header select]. rewrite (positions_screen _ _ H1 H2 H3).
  eexists. split; [reflexivity|]. cbn [header body].
  split; [reflexivity|]. split; [apply sort_desc_perm|apply sort_desc_sorted].
Qed.

(** The export of region B of [scenario], a file name, and the table on
    the screen for [pop] and [growth]. *)
Lemma export_witness :
  header (csv (filtered_df scenario "B")) =
    ["State"; "District"; "Latitude"; "Longitude"; "pop"; "growth"] /\
  file_name "Uttar Pradesh" = "india_census_Uttar_Pradesh.csv" /\
  exists t, data_table (filtered_df scenario "B") "pop" "growth" = Some t /\
            StronglySorted (desc_by (at_position 2)) (body t).
Proof.
  destruct (export_contract (filtered_df scenario "B") "Uttar Pradesh" "pop" "growth")
    as [H1 [_ [_ [H4 [_ [_ H7]]]]]].
  split; [exact H1|]. split; [exact H4|].
  destruct H7 as [t [Ht [_ [_ Hs]]]]; try discriminate.
  exists t. split; [exact Ht|exact Hs].
Defined.

(** C6 fails on the script: for region B of [scenario] the export has the
    six columns of the frame and its rows in the frame's order (dist2
    before dist3); the four columns by descending [pop] (dist3 first) are
    another table. *)
Lemma export_counterexample :
  header (csv (filtered_df scenario "B")) =
    ["State"; "District"; "Latitude"; "Longitude"; "pop"; "growth"] /\
  map (fun r => nth 1 r (VNum None)) (body (csv (filtered_df scenario "B"))) =
    [VStr "dist2"; VStr "dist3"] /\
  data_table (filtered_df scenario "B") "pop" "growth" =
    Some (mkTable ["State"; "District"; "pop"; "growth"]
            [ [VStr "B"; VStr "dist3"; VNum (Some 500); VNum (Some 1)];
              [VStr "B"; VStr "dist2"; VNum (Some 300); VNum (Some 3)] ]) /\
  Some (csv (filtered_df scenario "B")) <>
    data_table (filtered_df scenario "B") "pop" "growth".
Proof.
  split; [reflexivity|]. split; [reflexivity|]. split; [reflexivity|].
  discriminate.
Qed.

(** ** The two [if plot:] bodies *)

Ltac run_block :=
  cbv [block_1 block_2 bind when assign st pandas ret raise];
  cbn [fst snd run_of raised].

Ltac by_cases w :=
  destruct (show_stats w), (show_comparison w), (download w).

(** A block on a run: the page grows by elements that depend on the frame
    and the widgets alone, and so does each variable the block sets. *)
Lemma block_1_effect (df : DataFrame) (w : Widgets) :
  exists page,
    forall s,
      snd (run_of (block_1 df w s)) = snd s ++ page /\
      raised (block_1 df w s) =
        match data_table (filtered_df df (selected_state w)) (primary w) (secondary w)
        with Some _ => None | None => Some "ValueError" end.
Proof.
  run_block.
  destruct (data_table (filtered_df df (selected_state w)) (primary w) (secondary w))
    as [t|]; by_cases w; cbn [fst snd run_of raised];
    eexists; intros s; (split; [|reflexivity]);
    rewrite <- ?app_assoc; cbn [app]; reflexivity.
Qed.

Lemma block_1_again (df : DataFrame) (w : Widgets) (s : Run) :
  fst (run_of (block_1 df w (run_of (block_1 df w s)))) =
  fst (run_of (block_1 df w s)).
Proof.
  run_block.
  destruct (data_table (filtered_df df (selected_state w)) (primary w) (secondary w))
    as [t|]; by_cases w; reflexivity.
Qed.

Lemma block_1_vars (df : DataFrame) (w : Widgets) (s : Run) :
  let v := fst (run_of (block_1 df w s)) in
  v_filtered_df v = Some (filtered_df df (selected_state w)) /\
  v_zoom_level v = Some (zoom_level (selected_state w)) /\
  v_center_lat v = Some (center_lat df (selected_state w)) /\
  v_center_lon v = Some (center_lon df (selected_state w)) /\
  (show_comparison w = true ->
   v_top_districts v =
     Some (top_districts (filtered_df df (selected_state w)) (primary w))) /\
  (raised (block_1 df w s) = None ->
   v_stats_primary v =
     Some (stats_primary (filtered_df df (selected_state w)) (primary w)) /\
   v_stats_secondary v =
     Some (stats_secondary (filtered_df df (selected_state w)) (secondary w))).
Proof.
  run_block.
  destruct (data_table (filtered_df df (selected_state w)) (primary w) (secondary w))
    as [t|]; by_cases w; cbn; repeat split; congruence.
Qed.



(** ** The select boxes of the parameters *)

Lemma numeric_columns_In (df : DataFrame) (c : string) :
  In c (numeric_columns df) <->
  In (c, Number) (dtypes df) /\ c <> "Latitude" /\ c <> "Longitude".
Proof.
  unfold numeric_columns.
  rewrite filter_In, sorted_In, select_dtypes_number_In. simpl.
  rewrite orb_false_r, negb_true_iff, orb_false_iff, !String.eqb_neq. tauto.
Qed.

Lemma labels_kept_distinct (keep : string * dtype -> bool)
    (cols : list (string * dtype)) :
  NoDup (map fst cols) -> NoDup (map fst (filter keep cols)).
Proof.
  intros Hnd. induction cols as [|c cols IH]; simpl in *; [constructor|].
  apply NoDup_cons_iff in Hnd. destruct Hnd as [Hc Hnd].
  destruct (keep c); simpl; [|now apply IH].
  apply NoDup_cons; [|now apply IH].
  rewrite in_map_iff. intros [c' [E Hc']]. apply Hc.
  apply filter_In in Hc'. rewrite <- E. apply in_map. tauto.
Qed.

Lemma numeric_columns_NoDup (df : DataFrame) :
  NoDup (map fst (dtypes df)) -> NoDup (numeric_columns df).
Proof.
  intros H. unfold numeric_columns, select_dtypes_number.
  apply NoDup_filter.
  eapply Permutation_NoDup; [apply sorted_perm|].
  now apply labels_kept_distinct.
Qed.

Lemma one_dtype (l : list (string * dtype)) (k : string) (a b : dtype) :
  NoDup (map fst l) -> In (k, a) l -> In (k, b) l -> a = b.
Proof.
  induction l as [|[k' d] l IH]; simpl; intros H Ha Hb; [contradiction|].
  inversion H as [|? ? Hk Hl]; subst.
  destruct Ha as [Ea|Ha], Hb as [Eb|Hb].
  - congruence.
  - injection Ea as -> ->. exfalso. apply Hk.
    apply in_map_iff. now exists (k, b).
  - injection Eb as -> ->. exfalso. apply Hk.
    apply in_map_iff. now exists (k, a).
  - now apply IH.
Qed.

(** X1.  The index the second select box starts at is a position of its
    options whenever it has any, so either box shows nothing only when
    no numeric column is left.  What the boxes show at first are numeric
    columns of the frame other than the coordinates; with one such column
    both show it, and with two or more (under distinct labels) they show
    two different columns. *)
Theorem default_parameters (df : DataFrame) :
  (numeric_columns df <> [] ->
   (secondary_index (numeric_columns df) < List.length (numeric_columns df))%nat) /\
  (default_primary df = None <-> numeric_columns df = []) /\
  (default_secondary df = None <-> numeric_columns df = []) /\
  (forall p, default_primary df = Some p \/ default_secondary df = Some p ->
             In (p, Number) (dtypes df) /\ p <> "Latitude" /\ p <> "Longitude") /\
  (List.length (numeric_columns df) = 1%nat ->
   default_secondary df = default_primary df) /\
  (NoDup (map fst (dtypes df)) ->
   (2 <= List.length (numeric_columns df))%nat ->
   exists p s, default_primary df = Some p /\ default_secondary df = Some s /\
               p <> s).
Proof.
  unfold default_primary, default_secondary, secondary_index.
  split; [|split; [|split; [|split; [|split]]]].
  - intros H. destruct (numeric_columns df) as [|a [|b l]]; simpl; [congruence|lia|lia].
  - destruct (numeric_columns df); simpl; split; congruence.
  - destruct (numeric_columns df) as [|a [|b l]]; simpl; split; congruence.
  - intros p H. apply numeric_columns_In.
    destruct H as [H|H]; apply nth_error_In in H; exact H.
  - intros H. destruct (numeric_columns df) as [|a [|b l]]; simpl in *;
      try discriminate; reflexivity.
  - intros Hnd Hlen. apply numeric_columns_NoDup in Hnd.
    destruct (numeric_columns df) as [|a [|b l]]; simpl in *; try lia.
    exists a, b. split; [reflexivity|]. split; [reflexivity|].
    inversion Hnd as [|? ? Ha _]; subst. intros ->. apply Ha. now left.
Qed.

(** In [scenario] the boxes start at [growth] and [pop]. *)
Lemma default_parameters_witness :
  (secondary_index (numeric_columns scenario) < 2)%nat /\
  exists p s, default_primary scenario = Some p /\
              default_secondary scenario = Some s /\ p <> s.
Proof.
  destruct (default_parameters scenario) as [H1 [_ [_ [_ [_ H6]]]]].
  split.
  - apply H1. discriminate.
  - apply H6.
    + repeat constructor; simpl; intuition discriminate.
    + apply Nat.leb_le. reflexivity.
Defined.

(** ** When the table on the screen cannot be sorted *)

Lemma data_table_None (view : DataFrame) (p s : string) :
  data_table view p s = None <-> p = s \/ p = "State" \/ p = "District".
Proof.
  unfold data_table, sort_values_desc. cbn [header select positions].
  rewrite String.eqb_refl.
  destruct (String.eqb_spec "State" p), (String.eqb_spec "District" p),
           (String.eqb_spec s p);
    split; intros H; try discriminate H; try reflexivity; auto;
    exfalso; intuition congruence.
Qed.

Lemma block_1_raised (df : DataFrame) (w : Widgets) (s : Run) :
  raised (block_1 df w s) =
    match data_table (filtered_df df (selected_state w)) (primary w) (secondary w)
    with Some _ => None | None => Some "ValueError" end.
Proof.
  run_block.
  destruct (data_table _ _ _); by_cases w; reflexivity.
Qed.



(** ** The main content as a whole *)

Lemma block_1_normal (df : DataFrame) (w : Widgets) (s : Run) :
  raised (block_1 df w s) = None -> block_1 df w s = Ok tt (run_of (block_1 df w s)).
Proof. destruct (block_1 df w s) as [[] r|e r]; simpl; congruence. Qed.





(** ** The count metrics *)

Lemma unique_from_seen (seen l : list string) :
  (forall y, In y l -> In y seen) -> unique_from seen l = [].
Proof.
  induction l as [|y l IH]; intros H; simpl; [reflexivity|].
  rewrite (proj2 (existsb_eqb y seen)) by (apply H; now left).
  apply IH. intros z Hz. apply H. now right.
Qed.

Lemma unique_constant (x : string) (l : list string) :
  l <> [] -> (forall y, In y l -> y = x) -> unique l = [x].
Proof.
  destruct l as [|y l]; [congruence|]. intros _ H.
  unfold unique. simpl. rewrite (H y) by (now left).
  f_equal. apply unique_from_seen.
  intros z Hz. left. symmetry. apply H. now right.
Qed.

Lemma selected_state_sentinel (s : string) :
  (s =? overall_india) = true \/ (s =? overall_india) = false.
Proof. destruct (s =? overall_india); auto. Qed.

(** X5.  For the sentinel the metric "States Covered" is the number of
    options of the region box less one, the very number of states on the
    welcome screen.  For any other region it is 1 when the frame has a row
    of that region, and 0 (with "Total Districts" 0) when it has none.
    "Total Districts" never exceeds the number of rows of the frame. *)
Theorem states_covered (df : DataFrame) (region : string) :
  nunique (map State (rows (filtered_df df overall_india))) =
    (List.length (list_of_states df) - 1)%nat /\
  nunique (map State (rows (filtered_df df overall_india))) =
    nunique (map State (rows df)) /\
  (region <> overall_india ->
   (exists r, In r (rows df) /\ State r = region) ->
   nunique (map State (rows (filtered_df df region))) = 1%nat) /\
  (region <> overall_india ->
   (forall r, In r (rows df) -> State r <> region) ->
   nunique (map State (rows (filtered_df df region))) = 0%nat /\
   len (filtered_df df region) = 0%nat) /\
  (len (filtered_df df region) <= len df)%nat.
Proof.
  split; [|split; [reflexivity|split; [|split]]].
  - unfold list_of_states, nunique. cbn [List.length].
    rewrite sorted_length.
    change (filtered_df df overall_india) with df. lia.
  - intros Hr [r [Hin Hs]]. unfold nunique.
    rewrite (filtered_rows df region Hr).
    rewrite (unique_constant region); [reflexivity| |].
    + assert (K : In r (filter (fun r => State r =? region) (rows df))).
      { apply filter_In. split; [exact Hin|]. now apply String.eqb_eq. }
      intros E. apply map_eq_nil in E. rewrite E in K. exact K.
    + intros y Hy. apply in_map_iff in Hy. destruct Hy as [x [<- Hx]].
      apply filter_In in Hx. now apply String.eqb_eq.
  - intros Hr Hno. unfold nunique, len.
    rewrite (filtered_rows df region Hr).
    assert (E : filter (fun r => State r =? region) (rows df) = []).
    { destruct (filter _ _) as [|x l] eqn:E; [reflexivity|exfalso].
      assert (K : In x (filter (fun r => State r =? region) (rows df)))
        by (rewrite E; now left).
      apply filter_In in K. destruct K as [K1 K2].
      apply String.eqb_eq in K2. now apply (Hno x). }
    rewrite E. split; reflexivity.
  - unfold len, filtered_df.
    destruct (selected_state_sentinel region) as [-> | ->]; cbn [rows].
    + lia.
    + rewrite state_mask, boolean_index_filter. apply filter_length_le.
Qed.

(** Regions B and C of [scenario]. *)
Lemma states_covered_witness :
  nunique (map State (rows (filtered_df scenario "B"))) = 1%nat /\
  len (filtered_df scenario "C") = 0%nat.
Proof.
  destruct (states_covered scenario "B") as [_ [_ [H _]]].
  destruct (states_covered scenario "C") as [_ [_ [_ [K _]]]].
  split.
  - apply H; [discriminate|].
    exists (district "B" "dist2" 12 22 300 3). simpl. auto.
  - apply K; [discriminate|].
    intros r Hr. simpl in Hr. destruct Hr as [<-|[<-|[<-|[]]]]; discriminate.
Defined.

(** ** The sign of the delta *)

Lemma quotient_against_one (m g : Q) :
  0 < g -> (m / g < 1 <-> m < g) /\ (1 < m / g <-> g < m).
Proof.
  intros Hg.
  destruct (Qlt_le_dec m g) as [L|L].
  - assert (m / g < 1) by (apply Qlt_shift_div_r; lra). split; split; lra.
  - assert (1 <= m / g) by (apply Qle_shift_div_l; lra).
    destruct (Qlt_le_dec g m) as [L'|L'].
    + assert (1 < m / g) by (apply Qlt_shift_div_l; lra). split; split; lra.
    + assert (m / g <= 1) by (apply Qle_shift_div_r; lra). split; split; lra.
Qed.

Lemma negative_numerator (q : Q) : (Qnum q <? 0)%Z = true <-> q < 0.
Proof. rewrite Z.ltb_lt. unfold Qlt. simpl. lia. Qed.

Lemma digits_not_minus (u : Decimal.uint) (r1 r2 : string) :
  String.get 0 ((NilEmpty.string_of_uint u ++ "." ++ r1) ++ r2)%string
  <> Some "-"%char.
Proof. destruct u; simpl; discriminate. Qed.

Lemma format_1f_minus (q : Q) (r : string) :
  String.get 0 (format_1f (Fin q) ++ r)%string = Some "-"%char <-> q < 0.
Proof.
  rewrite <- negative_numerator. unfold format_1f, digits.
  destruct (Qnum q <? 0)%Z.
  - simpl. tauto.
  - split; [|discriminate]. intros H. exfalso. revert H.
    change ("" ++ ?x)%string with x. apply digits_not_minus.
Qed.

Lemma finite_delta (view : DataFrame) (a : string) (m g : Q) :
  mean (col a view) = Fin m -> ~ g == 0 ->
  delta_percent view a (Fin g) = Fin ((m / g - 1) * 100).
Proof.
  intros Hm Hg. unfold delta_percent. rewrite Hm. simpl.
  destruct (is_zero g) eqn:E; [|reflexivity].
  apply is_zero_iff in E. contradiction.
Qed.



(** ** What the summaries always satisfy *)

Lemma dropna_In (x : Q) (s : list cell) : In x (dropna s) <-> In (Some x) s.
Proof.
  induction s as [|[y|] s IH]; simpl; [tauto| |].
  - rewrite IH. split; intros [H|H]; auto; left; congruence.
  - rewrite IH. split; [auto|]. intros [H|H]; [discriminate|exact H].
Qed.

Lemma dropna_length (s : list cell) : (List.length (dropna s) <= List.length s)%nat.
Proof. induction s as [|[y|] s IH]; simpl; lia. Qed.

Lemma of_nat_S (n : nat) : of_nat (S n) == of_nat n + 1.
Proof.
  unfold of_nat. rewrite Nat2Z.inj_succ. unfold Z.succ.
  now rewrite inject_Z_plus.
Qed.

Lemma of_nat_pos (n : nat) : (0 < n)%nat -> 0 < of_nat n.
Proof.
  intros H. unfold of_nat. change 0 with (inject_Z 0). rewrite <- Zlt_Qlt. lia.
Qed.

Lemma sum_bounds (l : list Q) (lo hi : Q) :
  (forall x, In x l -> lo <= x <= hi) ->
  of_nat (List.length l) * lo <= sum l <= of_nat (List.length l) * hi.
Proof.
  induction l as [|x l IH]; intros H.
  - unfold of_nat. simpl. change (inject_Z 0) with 0. lra.
  - cbn [List.length sum fold_right]. fold (sum l). rewrite of_nat_S.
    destruct IH as [I1 I2]; [intros y Hy; apply H; now right|].
    destruct (H x) as [X1 X2]; [now left|]. lra.
Qed.

Lemma sum_nonneg (l : list Q) : (forall x, In x l -> 0 <= x) -> 0 <= sum l.
Proof.
  induction l as [|x l IH]; intros H; simpl; [lra|].
  fold (sum l). pose proof (H x (or_introl eq_refl)).
  assert (0 <= sum l) by (apply IH; intros y Hy; apply H; now right). lra.
Qed.

Lemma fold_min_In (l : list Q) (a : Q) : In (fold_left Qmin l a) (a :: l).
Proof.
  revert a. induction l as [|x l IH]; intros a; simpl; [auto|].
  destruct (IH (Qmin a x)) as [E|H]; [|auto].
  rewrite <- E. unfold Qmin, GenericMinMax.gmin.
  destruct (Qcompare a x); auto.
Qed.

Lemma fold_max_In (l : list Q) (a : Q) : In (fold_left Qmax l a) (a :: l).
Proof.
  revert a. induction l as [|x l IH]; intros a; simpl; [auto|].
  destruct (IH (Qmax a x)) as [E|H]; [|auto].
  rewrite <- E. unfold Qmax, GenericMinMax.gmax.
  destruct (Qcompare a x); auto.
Qed.



(** ** The summary of a single value, and the median *)

Lemma floor_unique (x : Q) (z : Z) :
  inject_Z z <= x -> x < inject_Z (z + 1) -> Qfloor x = z.
Proof.
  intros H1 H2.
  assert (A : (z <= Qfloor x)%Z).
  { rewrite <- (Qfloor_Z z). now apply Qfloor_resp_le. }
  assert (B : (Qfloor x < z + 1)%Z).
  { rewrite Zlt_Qlt. pose proof (Qfloor_le x). lra. }
  lia.
Qed.

Lemma lerp_single (x pos : Q) : pos == 0 -> lerp [x] pos == x.
Proof.
  intros H. unfold lerp, next_index, previous_index, gamma.
  rewrite (Qfloor_comp pos 0 H). change (Qfloor 0) with 0%Z.
  cbn [Z.to_nat List.length Nat.add Nat.sub Nat.min nth].
  rewrite H. change (inject_Z 0) with 0. ring.
Qed.

(** X8.  A summary that counts one value has no standard deviation (NaN),
    and its mean, minimum, quartiles and maximum are all that value. *)
Theorem single_value_summary (view : DataFrame) (attribute : string) :
  d_count (describe (col attribute view)) = 1%nat ->
  exists x,
    In (Some x) (col attribute view) /\
    d_std (describe (col attribute view)) = Sqrt NaN /\
    same (d_mean (describe (col attribute view))) (Fin x) /\
    same (d_min (describe (col attribute view))) (Fin x) /\
    same (d_25 (describe (col attribute view))) (Fin x) /\
    same (d_50 (describe (col attribute view))) (Fin x) /\
    same (d_75 (describe (col attribute view))) (Fin x) /\
    same (d_max (describe (col attribute view))) (Fin x).
Proof.
  cbn [describe d_count d_min d_mean d_max d_std d_25 d_50 d_75].
  unfold count, min, max, mean, std, var, quantile.
  pose proof (dropna_In) as DI. specialize (fun x => DI x (col attribute view)).
  destruct (dropna (col attribute view)) as [|x [|y ys]]; cbn [List.length];
    try discriminate.
  intros _. exists x. split; [apply DI; now left|].
  split; [reflexivity|].
  cbn [same fold_left sorted fold_right insert Nat.sub].
  assert (Z0 : forall q, q * of_nat 0 == 0)
    by (intros q; unfold of_nat; change (inject_Z (Z.of_nat 0)) with 0; ring).
  repeat split; try reflexivity; try (apply lerp_single, Z0).
  unfold sum, of_nat. cbn [fold_right]. change (inject_Z (Z.of_nat 1)) with 1.
  field.
Qed.

(** [pop] over [blank], where one cell of two is NaN. *)
Lemma single_value_summary_witness :
  exists x, same (d_50 (describe (col "pop" blank))) (Fin x) /\
            d_std (describe (col "pop" blank)) = Sqrt NaN.
Proof.
  destruct (single_value_summary blank "pop") as [x [_ [H1 [_ [_ [_ [H2 _]]]]]]].
  - reflexivity.
  - exists x. split; [exact H2|exact H1].
Defined.

Lemma of_nat_double (k : nat) : of_nat (2 * k) == 2 * of_nat k.
Proof.
  unfold of_nat. rewrite Nat2Z.inj_mul, inject_Z_mult. reflexivity.
Qed.

Lemma half_position (pos : Q) (k : nat) (r : Q) :
  pos == of_nat k + r -> 0 <= r < 1 ->
  previous_index pos = k /\ gamma pos == r.
Proof.
  intros E Hr. unfold previous_index, gamma, of_nat in *.
  assert (F : Qfloor pos = Z.of_nat k).
  { apply floor_unique; [lra|]. rewrite inject_Z_plus.
    change (inject_Z 1) with 1. lra. }
  rewrite F. split; [apply Nat2Z.id|lra].
Qed.

Lemma lerp_median (v : list Q) :
  v <> [] -> lerp v ((1 # 2) * of_nat (List.length v - 1)) == median v.
Proof.
  intros Hv. unfold median, lerp.
  assert (Hn : (0 < List.length v)%nat) by (destruct v; simpl; [congruence|lia]).
  set (n := List.length v) in *.
  set (pos := (1 # 2) * of_nat (n - 1)).
  destruct (Nat.Even_or_Odd n) as [[k Hk]|[k Hk]].
  - assert (Ev : Nat.even n = true) by (apply Nat.even_spec; now exists k).
    rewrite Ev.
    destruct k as [|j]; [lia|].
    assert (P : pos == of_nat j + (1 # 2)).
    { unfold pos. replace (n - 1)%nat with (S (2 * j)) by lia.
      rewrite of_nat_S, of_nat_double. field. }
    destruct (half_position pos j (1 # 2) P) as [I G]; [lra|].
    unfold next_index. rewrite I, G.
    replace (n / 2)%nat with (S j)
      by (rewrite Hk, Nat.mul_comm, Nat.div_mul; lia).
    replace (Nat.min (j + 1) (n - 1)) with (S j) by lia.
    replace (S j - 1)%nat with j by lia. field.
  - assert (Ev : Nat.even n = false).
    { rewrite <- Nat.negb_odd.
      rewrite (proj2 (Nat.odd_spec n)); [reflexivity|now exists k]. }
    rewrite Ev.
    assert (P : pos == of_nat k + 0).
    { unfold pos. replace (n - 1)%nat with (2 * k)%nat by lia.
      rewrite of_nat_double. field. }
    destruct (half_position pos k 0 P) as [I G]; [lra|].
    rewrite I, G.
    replace (n / 2)%nat with k
      by (rewrite Hk, Nat.mul_comm, Nat.div_add_l; simpl; lia).
    ring.
Qed.



(** ** The lines of the bar chart *)

Lemma firstn_incl {A : Type} (n : nat) (l : list A) (x : A) :
  In x (firstn n l) -> In x l.
Proof.
  intros H. rewrite <- (firstn_skipn n l). apply in_or_app. now left.
Qed.

(** X10.  The table of the bar chart has at most ten lines, one per row of
    the view it keeps, each made of the district, the primary value and
    the state of that row.  A view of ten rows or fewer is on it whole. *)
Theorem top_districts_lines (view : DataFrame) (primary : string) :
  List.length (body (top_districts view primary)) = Nat.min 10 (len view) /\
  (forall line, In line (body (top_districts view primary)) ->
     exists r, In r (rows view) /\
               line = [VStr (District r); field primary r; VStr (State r)]) /\
  ((len view <= 10)%nat ->
   Permutation (body (top_districts view primary))
     (body (select ["District"; primary; "State"] view))).
Proof.
  unfold top_districts, select. cbn [body]. rewrite nlargest_rows.
  split; [|split].
  - rewrite length_map, length_firstn. unfold len.
    now rewrite (Permutation_length (sort_desc_perm (num primary) (rows view))).
  - intros line H. apply in_map_iff in H. destruct H as [r [<- Hr]].
    exists r. split; [|reflexivity].
    apply firstn_incl in Hr.
    eapply Permutation_in; [apply sort_desc_perm|exact Hr].
  - intros H. apply Permutation_map. rewrite firstn_all2.
    + apply sort_desc_perm.
    + rewrite (Permutation_length (sort_desc_perm (num primary) (rows view))).
      exact H.
Qed.

(** The three districts of [scenario] are all on the chart. *)
Lemma top_districts_lines_witness :
  Permutation (body (top_districts scenario "pop"))
    (body (select ["District"; "pop"; "State"] scenario)) /\
  exists r, In r (rows scenario) /\
    [VStr "dist3"; VNum (Some 500); VStr "B"] =
    [VStr (District r); field "pop" r; VStr (State r)].
Proof.
  destruct (top_districts_lines scenario "pop") as [_ [H1 H2]].
  split.
  - apply H2. apply Nat.leb_le. reflexivity.
  - apply H1. simpl. auto.
Defined.

(** ** The name and the lines of the export *)

Lemma has_char_append (c : ascii) (a b : string) :
  has_char c (a ++ b)%string = has_char c a || has_char c b.
Proof.
  induction a as [|x a IH]; simpl; [reflexivity|].
  rewrite IH. apply orb_assoc.
Qed.

Lemma length_append (a b : string) :
  String.length (a ++ b)%string = (String.length a + String.length b)%nat.
Proof. induction a as [|x a IH]; simpl; congruence. Qed.

Lemma replace_removes (old new : ascii) (s : string) :
  old <> new -> has_char old (replace old new s) = false.
Proof.
  intros H. induction s as [|c s IH]; simpl; [reflexivity|].
  rewrite IH, orb_false_r.
  destruct (Ascii.eqb_spec c old) as [->|N].
  - apply Ascii.eqb_neq. congruence.
  - now apply Ascii.eqb_neq.
Qed.

Lemma replace_absent (old new : ascii) (s : string) :
  has_char old s = false -> replace old new s = s.
Proof.
  induction s as [|c s IH]; simpl; [reflexivity|].
  intros H. apply orb_false_iff in H. destruct H as [H1 H2].
  now rewrite H1, IH.
Qed.

(** X11.  The name of the export never holds a space, whatever the region
    is called; it is 17 characters longer than the region's name, and a
    region's name without a space is in it as it is. *)
Theorem file_name_shape (selected_state : string) :
  has_char " " (file_name selected_state) = false /\
  String.length (file_name selected_state) =
    (String.length selected_state + 17)%nat /\
  (has_char " " selected_state = false ->
   file_name selected_state =
     ("india_census_" ++ selected_state ++ ".csv")%string).
Proof.
  unfold file_name. split; [|split].
  - rewrite !has_char_append, replace_removes by discriminate. reflexivity.
  - rewrite !length_append, replace_length. simpl. lia.
  - intros H. now rewrite replace_absent.
Qed.

(** A name without a space. *)
Lemma file_name_shape_witness :
  file_name "Kerala" = "india_census_Kerala.csv".
Proof.
  apply (proj2 (proj2 (file_name_shape "Kerala"))). reflexivity.
Defined.

Lemma index_of_In (label : string) (names : list string) :
  In label names ->
  exists i, index_of label names = Some i /\ nth_error names i = Some label.
Proof.
  induction names as [|c names IH]; simpl; [contradiction|].
  intros H. destruct (String.eqb_spec c label) as [->|N].
  - exists 0%nat. split; reflexivity.
  - destruct H as [H|H]; [contradiction|].
    destruct (IH H) as [i [E1 E2]]. exists (S i). rewrite E1. split; [reflexivity|exact E2].
Qed.

Lemma index_of_absent (label : string) (names : list string) :
  ~ In label names -> index_of label names = None.
Proof.
  induction names as [|c names IH]; simpl; [reflexivity|].
  intros H. destruct (String.eqb_spec c label) as [->|N]; [tauto|].
  rewrite IH; [reflexivity|tauto].
Qed.



(** ** Means *)

Lemma mean_between (s : list cell) (lo hi c : Q) :
  (forall x, In (Some x) s -> lo <= x <= hi) ->
  mean s = Fin c -> lo <= c <= hi.
Proof.
  intros B. unfold mean.
  pose proof (fun x => proj1 (dropna_In x s)) as DI.
  destruct (dropna s) as [|y ys]; [discriminate|].
  intros E. injection E as <-.
  assert (P : 0 < of_nat (List.length (y :: ys)))
    by (apply of_nat_pos; simpl; lia).
  destruct (sum_bounds (y :: ys) lo hi) as [S1 S2];
    [intros x Hx; apply B, DI, Hx|].
  split.
  - apply Qle_shift_div_l; [exact P|]. rewrite Qmult_comm. exact S1.
  - apply Qle_shift_div_r; [exact P|]. rewrite Qmult_comm. exact S2.
Qed.

Lemma mean_defined (s : list cell) (x : Q) :
  In (Some x) s -> exists c, mean s = Fin c.
Proof.
  intros H. apply dropna_In in H. unfold mean.
  destruct (dropna s); [contradiction|eauto].
Qed.



(** ** What the delta of a metric can be *)

Lemma is_pos_iff (q : Q) : is_pos q = true <-> 0 < q.
Proof. unfold is_pos, Qlt. simpl. rewrite Z.ltb_lt. lia. Qed.



(** ** Regional means against the global mean *)

Lemma sum_app (a b : list Q) : sum (a ++ b) == sum a + sum b.
Proof.
  induction a as [|x a IH]; simpl; [lra|]. fold (sum (a ++ b)) (sum a).
  rewrite IH. lra.
Qed.

Lemma sum_perm (a b : list Q) : Permutation a b -> sum a == sum b.
Proof.
  induction 1 as [|x a b P IH|x y a|a b c P1 IH1 P2 IH2]; simpl.
  - reflexivity.
  - fold (sum a) (sum b). rewrite IH. reflexivity.
  - fold (sum a). lra.
  - now rewrite IH1.
Qed.

Lemma dropna_app (a b : list cell) : dropna (a ++ b) = dropna a ++ dropna b.
Proof.
  induction a as [|[x|] a IH]; simpl; [reflexivity| |]; now rewrite IH.
Qed.

Lemma dropna_perm (a b : list cell) :
  Permutation a b -> Permutation (dropna a) (dropna b).
Proof.
  induction 1 as [|[x|] a b P IH|[x|] [y|] a|a b c P1 IH1 P2 IH2]; simpl;
    try (now constructor); try apply Permutation_refl; try exact IH.
  now apply Permutation_trans with (dropna b).
Qed.

Lemma weight_total (view : DataFrame) (a : string) :
  weight view a == sum (dropna (col a view)).
Proof.
  unfold weight, mean, count.
  destruct (dropna (col a view)) as [|y ys]; [reflexivity|].
  assert (P : 0 < of_nat (List.length (y :: ys)))
    by (apply of_nat_pos; simpl; lia).
  field. lra.
Qed.

Lemma total_of_views (a : string) (views : list (list Row)) :
  sum (dropna (map (num a) (List.concat views))) ==
  sum (map (fun rs => sum (dropna (map (num a) rs))) views).
Proof.
  induction views as [|rs views IH]; simpl; [reflexivity|].
  rewrite map_app, dropna_app, sum_app.
  fold (sum (map (fun rs => sum (dropna (map (num a) rs))) views)).
  now rewrite IH.
Qed.


